(** * attila_https: the HTTPS connector and connection of the Attila plugin

    A shallow embedding of [attila_https/__init__.py] and the properties of
    it that the design document states.

    Python [str] values are [string]s, file contents are lists of bytes,
    [int] values are [Z].  Code that can raise returns a [result]; code that
    talks to the network, the local staging files or the warning channel
    runs in the state-and-exception monad [M] over a [World]. *)

From Stdlib Require Import String Ascii List ZArith Bool Lia.
From Stdlib Require Import DecimalString.
From Stdlib Require DecimalPos.
From Stdlib.Init Require Import Byte.
Import ListNotations.

Local Open Scope string_scope.
Local Open Scope Z_scope.

(** ** Python string primitives used by the module *)

Module PyStr.

(** [c in s] for a one-character [c]. *)
Fixpoint has_char (c : ascii) (s : string) : bool :=
  match s with
  | EmptyString => false
  | String d s' => Ascii.eqb c d || has_char c s'
  end.

(** [s.startswith(p)]. *)
Fixpoint startswith (p s : string) : bool :=
  match p, s with
  | EmptyString, _ => true
  | String a p', String b s' => Ascii.eqb a b && startswith p' s'
  | String _ _, EmptyString => false
  end.

(** [sub in s]. *)
Fixpoint has_sub (sub s : string) : bool :=
  startswith sub s ||
  match s with
  | EmptyString => false
  | String _ s' => has_sub sub s'
  end.

(** [i = s.find(c)] with the two slices [s[:i]] and [s[i+1:]];
    [None] when [find] answers [-1]. *)
Fixpoint cut (c : ascii) (s : string) : option (string * string) :=
  match s with
  | EmptyString => None
  | String d s' =>
      if Ascii.eqb c d then Some (EmptyString, s')
      else match cut c s' with
           | Some (l, r) => Some (String d l, r)
           | None => None
           end
  end.

(** [i = s.rfind(c)] with the two slices [s[:i]] and [s[i+1:]]. *)
Fixpoint rcut (c : ascii) (s : string) : option (string * string) :=
  match s with
  | EmptyString => None
  | String d s' =>
      match rcut c s' with
      | Some (l, r) => Some (String d l, r)
      | None => if Ascii.eqb c d then Some (EmptyString, s') else None
      end
  end.

(** [s.split(c)]: every piece between occurrences of [c]. *)
Fixpoint split (c : ascii) (s : string) : list string :=
  match s with
  | EmptyString => [EmptyString]
  | String d s' =>
      match split c s' with
      | piece :: rest =>
          if Ascii.eqb c d then EmptyString :: piece :: rest
          else String d piece :: rest
      | [] => [String d EmptyString]
      end
  end.

(** [sep.join(l)]. *)
Fixpoint join (sep : string) (l : list string) : string :=
  match l with
  | [] => EmptyString
  | [x] => x
  | x :: rest => x ++ sep ++ join sep rest
  end.

(** The longest prefix whose characters fail [stop], and the rest. *)
Fixpoint span_until (stop : ascii -> bool) (s : string) : string * string :=
  match s with
  | EmptyString => (EmptyString, EmptyString)
  | String d s' =>
      if stop d then (EmptyString, s)
      else let (l, r) := span_until stop s' in (String d l, r)
  end.

(** [s.lstrip(chars)]. *)
Fixpoint lstrip (chars s : string) : string :=
  match s with
  | EmptyString => EmptyString
  | String d s' => if has_char d chars then lstrip chars s' else s
  end.

(** [s.rstrip(chars)]. *)
Fixpoint rstrip (chars s : string) : string :=
  match s with
  | EmptyString => EmptyString
  | String d s' =>
      match rstrip chars s' with
      | EmptyString => if has_char d chars then EmptyString
                       else String d EmptyString
      | t => String d t
      end
  end.

(** [s.strip(chars)]. *)
Definition strip (chars s : string) : string :=
  rstrip chars (lstrip chars s).

(** [s.replace(c, '')]. *)
Fixpoint remove_char (c : ascii) (s : string) : string :=
  match s with
  | EmptyString => EmptyString
  | String d s' =>
      if Ascii.eqb c d then remove_char c s' else String d (remove_char c s')
  end.

Definition is_upper (c : ascii) : bool :=
  let n := nat_of_ascii c in (65 <=? n)%nat && (n <=? 90)%nat.

Definition is_lower (c : ascii) : bool :=
  let n := nat_of_ascii c in (97 <=? n)%nat && (n <=? 122)%nat.

Definition is_digit (c : ascii) : bool :=
  let n := nat_of_ascii c in (48 <=? n)%nat && (n <=? 57)%nat.

Definition is_alpha (c : ascii) : bool := is_upper c || is_lower c.

Definition lower_char (c : ascii) : ascii :=
  if is_upper c then ascii_of_nat (nat_of_ascii c + 32) else c.

(** [s.lower()]. *)
Fixpoint lower (s : string) : string :=
  match s with
  | EmptyString => EmptyString
  | String d s' => String (lower_char d) (lower s')
  end.

Fixpoint forallb (p : ascii -> bool) (s : string) : bool :=
  match s with
  | EmptyString => true
  | String d s' => p d && forallb p s'
  end.

(** [c * len(s)] compared with [s]: every character of [s] is [c]. *)
Definition all_char (c : ascii) (s : string) : bool :=
  forallb (Ascii.eqb c) s.

(** [str(n)] for an [int]. *)
Definition of_int (n : Z) : string := NilZero.string_of_int (Z.to_int n).

End PyStr.

(** ** Exceptions and results *)

Inductive exn : Type :=
| AssertionError
| ValueError
| KeyError
| TypeError
| OSError
| OperationNotSupportedError
| HTTPError (status : Z)
| RequestException (kind : string).

Inductive result (A : Type) : Type :=
| Ok (a : A)
| Raise (e : exn).

Arguments Ok {A} a.
Arguments Raise {A} e.

Definition rbind {A B} (r : result A) (k : A -> result B) : result B :=
  match r with
  | Ok a => k a
  | Raise e => Raise e
  end.

(** ** [str.format] with named fields *)

Module PyFormat.

Fixpoint lookup (name : string) (kw : list (string * string)) : option string :=
  match kw with
  | [] => None
  | (k, v) :: kw' => if String.eqb name k then Some v else lookup name kw'
  end.

(** [field] is [Some name] while the scan is inside a replacement field
    whose name read so far is [name].  A field that is never closed and a
    lone closing brace are [ValueError]; an unknown name is [KeyError]. *)
Fixpoint scan (t : string) (field : option string)
         (kw : list (string * string)) : result string :=
  match t with
  | EmptyString =>
      match field with
      | None => Ok EmptyString
      | Some _ => Raise ValueError
      end
  | String c t' =>
      match field with
      | None =>
          if Ascii.eqb c "{" then scan t' (Some EmptyString) kw
          else if Ascii.eqb c "}" then Raise ValueError
          else rbind (scan t' None kw) (fun r => Ok (String c r))
      | Some name =>
          if Ascii.eqb c "}" then
            match lookup name kw with
            | Some v => rbind (scan t' None kw) (fun r => Ok (v ++ r))
            | None => Raise KeyError
            end
          else scan t' (Some (name ++ String c EmptyString)) kw
      end
  end.

Definition format (template : string) (kw : list (string * string))
  : result string :=
  scan template None kw.

End PyFormat.

(** ** Module constants *)

Definition DEFAULT_HTTPS_PORT : Z := 443.
Definition HTTPS_URL_TEMPLATE : string := "https://{server}{path}".
Definition HTTPS_URL_PORT_TEMPLATE : string := "https://{server}:{port}{path}".

(** ** The connector and the connection objects *)

Record HTTPSConnector : Type := mkConnector {
  _server : string;
  _port : Z;
  initial_cwd : option string
}.

Definition server (k : HTTPSConnector) : string := _server k.
Definition port (k : HTTPSConnector) : Z := _port k.

Record https_connection : Type := mkConnection {
  _connector : HTTPSConnector;
  _is_open : bool;
  _cwd : option string
}.

Definition is_open (c : https_connection) : bool := _is_open c.

(** [Path(path_string, connection)] of the Attila framework: a path string
    and the connection it dispatches to. *)
Record Path : Type := mkPath {
  path_string : string;
  connection : https_connection
}.

(** [fs_connection.check_path] of the framework hands a [str] argument back
    unchanged; paths are passed as their strings throughout. *)
Definition check_path (self : https_connection) (path : string) : string := path.

(** [https_connection._get_url] *)
Definition _get_url (self : https_connection) (path : string) : result string :=
  if port (_connector self) =? DEFAULT_HTTPS_PORT then
    PyFormat.format HTTPS_URL_TEMPLATE
      [("server", server (_connector self)); ("path", path)]
  else
    PyFormat.format HTTPS_URL_PORT_TEMPLATE
      [("server", server (_connector self));
       ("port", PyStr.of_int (port (_connector self)));
       ("path", path)].

(** The text [_get_url] builds, for every connection and path. *)
Definition url_of (self : https_connection) (p : string) : string :=
  if port (_connector self) =? 443
  then "https://" ++ server (_connector self) ++ p
  else "https://" ++ server (_connector self) ++ ":"
       ++ PyStr.of_int (port (_connector self)) ++ p.

(** ** [int(s)] for a [str] *)

Module PyInt.

(** The characters [int] skips around the number. *)
Definition is_space (c : ascii) : bool :=
  let n := nat_of_ascii c in
  ((9 <=? n)%nat && (n <=? 13)%nat) || (n =? 32)%nat
  || (n =? 133)%nat || (n =? 160)%nat.

Fixpoint lstrip_space (s : string) : string :=
  match s with
  | EmptyString => EmptyString
  | String d s' => if is_space d then lstrip_space s' else s
  end.

Fixpoint rstrip_space (s : string) : string :=
  match s with
  | EmptyString => EmptyString
  | String d s' =>
      match rstrip_space s' with
      | EmptyString => if is_space d then EmptyString else String d EmptyString
      | t => String d t
      end
  end.

Inductive seen : Type := Nothing | Digit | Underscore.

(** Decimal digits, where single underscores may separate digits. *)
Fixpoint digits (s : string) (acc : Z) (st : seen) : option Z :=
  match s with
  | EmptyString => match st with Digit => Some acc | _ => None end
  | String d s' =>
      if PyStr.is_digit d then
        digits s' (10 * acc + (Z.of_nat (nat_of_ascii d) - 48)) Digit
      else if Ascii.eqb d "_" then
        match st with Digit => digits s' acc Underscore | _ => None end
      else None
  end.

(** [int(s)]: [ValueError] unless [s] is a decimal literal. *)
Definition int (s : string) : result Z :=
  let s := rstrip_space (lstrip_space s) in
  let parsed :=
    match s with
    | String c s' =>
        if Ascii.eqb c "-" then option_map Z.opp (digits s' 0 Nothing)
        else if Ascii.eqb c "+" then digits s' 0 Nothing
        else digits s 0 Nothing
    | EmptyString => None
    end in
  match parsed with
  | Some n => Ok n
  | None => Raise ValueError
  end.

End PyInt.

(** ** [urllib.parse.urlparse] and [os.path]

    The parser follows [urlsplit] and [urlparse] of CPython's
    [urllib.parse] step by step.  A bracketed host is checked for balanced
    brackets only, and the normalisation check of a non-ASCII authority is
    left out. *)

Module UrlParse.

Record ParseResult : Type := mkParseResult {
  scheme : string;
  netloc : string;
  path : string;
  params : string;
  query : string;
  fragment : string
}.

Definition uses_params : list string :=
  [""; "ftp"; "hdl"; "prospero"; "http"; "imap"; "https"; "shttp"; "rtsp";
   "rtspu"; "sip"; "sips"; "mms"; "sftp"; "tel"].

Definition scheme_chars : string :=
  "abcdefghijklmnopqrstuvwxyzABCDEFGHIJKLMNOPQRSTUVWXYZ0123456789+-.".

(** The characters of code 0 to 32. *)
Definition _WHATWG_C0_CONTROL_OR_SPACE : string :=
  string_of_list_ascii (List.map ascii_of_nat (List.seq 0 33)).

Definition _UNSAFE_URL_BYTES_TO_REMOVE : list ascii :=
  ["009"%char; "013"%char; "010"%char].

Definition is_netloc_delim (c : ascii) : bool := PyStr.has_char c "/?#".

(** [_splitnetloc(url, 2)], on the text after the two slashes. *)
Definition _splitnetloc (after_slashes : string) : string * string :=
  PyStr.span_until is_netloc_delim after_slashes.

(** The scheme step of [urlsplit]: [i = url.find(':')], and when [i > 0],
    the first character is an ASCII letter and every character of
    [url[:i]] is a scheme character, the scheme is [url[:i].lower()] and
    the rest is [url[i+1:]]. *)
Definition split_scheme (url : string) : string * string :=
  match PyStr.cut ":" url with
  | Some (String c0 pre', rest) =>
      if PyStr.is_alpha c0 &&
         PyStr.forallb (fun c => PyStr.has_char c scheme_chars) (String c0 pre')
      then (PyStr.lower (String c0 pre'), rest)
      else (EmptyString, url)
  | _ => (EmptyString, url)
  end.

Definition urlsplit (url : string)
  : result (string * string * string * string * string) :=
  let url := PyStr.lstrip _WHATWG_C0_CONTROL_OR_SPACE url in
  let url := List.fold_left (fun u b => PyStr.remove_char b u)
                            _UNSAFE_URL_BYTES_TO_REMOVE url in
  let (scheme, url) := split_scheme url in
  rbind
    (if PyStr.startswith "//" url then
       let (netloc, rest) := _splitnetloc (String.substring 2 (String.length url) url) in
       if (PyStr.has_char "[" netloc && negb (PyStr.has_char "]" netloc))
          || (PyStr.has_char "]" netloc && negb (PyStr.has_char "[" netloc))
       then Raise ValueError
       else Ok (netloc, rest)
     else Ok (EmptyString, url))
    (fun '(netloc, url) =>
       let (url, fragment) :=
         match PyStr.cut "#" url with
         | Some (u, f) => (u, f)
         | None => (url, EmptyString)
         end in
       let (url, query) :=
         match PyStr.cut "?" url with
         | Some (u, q) => (u, q)
         | None => (url, EmptyString)
         end in
       Ok (scheme, netloc, url, query, fragment)).

(** [_splitparams]: the parameters start at the first semicolon of the
    last path segment. *)
Definition _splitparams (url : string) : string * string :=
  match PyStr.rcut "/" url with
  | Some (head, tail) =>
      match PyStr.cut ";" tail with
      | Some (seg, params) => (head ++ "/" ++ seg, params)
      | None => (url, EmptyString)
      end
  | None =>
      match PyStr.cut ";" url with
      | Some (seg, params) => (seg, params)
      | None => (url, EmptyString)
      end
  end.

Definition urlparse (url : string) : result ParseResult :=
  rbind (urlsplit url) (fun '(scheme, netloc, url, query, fragment) =>
    let (url, params) :=
      if List.existsb (String.eqb scheme) uses_params && PyStr.has_char ";" url
      then _splitparams url
      else (url, EmptyString) in
    Ok (mkParseResult scheme netloc url params query fragment)).

End UrlParse.

Module PosixPath.

(** [os.path.basename]: [i = p.rfind('/') + 1; return p[i:]]. *)
Definition basename (p : string) : string :=
  match PyStr.rcut "/" p with
  | Some (_, tail) => tail
  | None => p
  end.

(** [os.path.dirname]: [head = p[:i]], stripped of its trailing slashes
    unless it consists of slashes only. *)
Definition dirname (p : string) : string :=
  let head :=
    match PyStr.rcut "/" p with
    | Some (before, _) => before ++ "/"
    | None => EmptyString
    end in
  if negb (String.eqb head EmptyString) && negb (PyStr.all_char "/" head)
  then PyStr.rstrip "/" head
  else head.

End PosixPath.


(** ** [HTTPSConnector] *)

(** [attila.strings.split_port]: splits [host[:port]], with the default
    port when none is written. *)
Definition split_port (ip_port : string) (default : Z) : result (string * Z) :=
  if PyStr.has_char ":" ip_port then
    match PyStr.split ":" ip_port with
    | [server; port] => rbind (PyInt.int port) (fun port => Ok (server, port))
    | _ => Raise ValueError
    end
  else Ok (ip_port, default).

(** [HTTPSConnector.__init__] *)
Definition HTTPSConnector_init (server : string) (initial_cwd : option string)
  : result HTTPSConnector :=
  if String.eqb server EmptyString then Raise ValueError
  else
    rbind (split_port server DEFAULT_HTTPS_PORT) (fun '(server, port) =>
      Ok (mkConnector server port initial_cwd)).

(** [HTTPSConnector.connect]: a new connection, not yet opened. *)
Definition connect (self : HTTPSConnector) : https_connection :=
  mkConnection self false (initial_cwd self).

(** The URL that [load_url] hands to [urlparse]. *)
Definition with_scheme (url : string) : string :=
  if negb (PyStr.has_sub "://" url) then "https://" ++ url else url.

Definition assert (b : bool) : result unit :=
  if b then Ok tt else Raise AssertionError.

(** [HTTPSConnector.load_url] *)
Definition load_url (url : string) : result Path :=
  let url := with_scheme url in
  rbind (UrlParse.urlparse url) (fun u =>
  let scheme := UrlParse.scheme u in
  let netloc := UrlParse.netloc u in
  let path := UrlParse.path u in
  let params := UrlParse.params u in
  let query := UrlParse.query u in
  let fragment := UrlParse.fragment u in
  rbind (assert (String.eqb params EmptyString && String.eqb fragment EmptyString))
    (fun _ =>
  rbind (assert (String.eqb (PyStr.lower scheme) "https")) (fun _ =>
  rbind (assert (negb (PyStr.has_char "@" netloc))) (fun _ =>
  let address := netloc in
  rbind
    (if PyStr.has_char ":" address then
       match PyStr.split ":" address with
       | [server; port] => rbind (PyInt.int port) (fun port => Ok (server, port))
       | _ => Raise ValueError
       end
     else Ok (address, DEFAULT_HTTPS_PORT))
    (fun '(server, port) =>
  rbind (HTTPSConnector_init (server ++ ":" ++ PyStr.of_int port) None) (fun k =>
  Ok (mkPath (path ++ "?" ++ query) (connect k)))))))).

(** ** The pure path operations of [https_connection] *)

(** [https_connection.name] *)
Definition name (self : https_connection) (path : string) : result string :=
  let path := check_path self path in
  rbind (UrlParse.urlparse path) (fun u =>
  let raw_path := UrlParse.path u in
  Ok (PosixPath.basename raw_path)).

(** [https_connection.dir] *)
Definition dir (self : https_connection) (path : string) : result (option Path) :=
  let path := check_path self path in
  rbind (UrlParse.urlparse path) (fun u =>
  let raw_path := UrlParse.path u in
  let dir_path := PosixPath.dirname raw_path in
  if String.eqb dir_path raw_path then Ok None
  else Ok (Some (mkPath dir_path self))).

(** [https_connection.is_dir] *)
Definition is_dir (self : https_connection) (path : string) : bool := false.

(** [https_connection.join] *)
Definition join (self : https_connection) (path_elements : list string) : Path :=
  match path_elements with
  | first :: _ =>
      let starting_slash := PyStr.startswith "/" first in
      let path_elements :=
        List.map (fun element => PyStr.strip "/\" (check_path self element))
                 path_elements in
      let path_elements :=
        if starting_slash then EmptyString :: path_elements else path_elements in
      mkPath (PyStr.join "/" path_elements) self
  | [] => mkPath EmptyString self  (* [Path(connection=self)] *)
  end.

(** ** The world the connection acts on

    The HTTP transport and the remote server answer each request with a
    response or fail in the transport; the local staging store maps a local
    path to its content and says which paths can be opened for writing; the
    local file system connection names temporary files.  The world records every request handed to the transport and
    every warning emitted. *)

Inductive http_method : Type := GET | PUT | DELETE.

Record Request : Type := mkRequest {
  req_method : http_method;
  req_url : string;
  req_data : option (list byte)
}.

Record Response : Type := mkResponse {
  status_code : Z;
  content : list byte
}.

Inductive outcome : Type :=
| Responds (r : Response)
| Fails (kind : string).

Record World : Type := mkWorld {
  remote : Request -> outcome;
  local_files : string -> option (list byte);
  writable : string -> bool;
  get_temp_file_path : string -> string;
  sent : list Request;
  warned : list string
}.

Definition M (A : Type) : Type := World -> result A * World.

Definition ret {A} (a : A) : M A := fun w => (Ok a, w).

Definition raise {A} (e : exn) : M A := fun w => (Raise e, w).

Definition bind {A B} (m : M A) (k : A -> M B) : M B :=
  fun w =>
    match m w with
    | (Ok a, w') => k a w'
    | (Raise e, w') => (Raise e, w')
    end.

Definition lift {A} (r : result A) : M A := fun w => (r, w).

Declare Scope py_scope.
Delimit Scope py_scope with py.
Notation "x <- m ;; k" := (bind m (fun x => k))
  (at level 61, m at next level, right associativity) : py_scope.
Notation "m ;;; k" := (bind m (fun _ => k))
  (at level 61, right associativity) : py_scope.
Local Open Scope py_scope.

Definition log_request (rq : Request) (w : World) : World :=
  mkWorld (remote w) (local_files w) (writable w) (get_temp_file_path w)
          (sent w ++ [rq]) (warned w).

(** [requests.request]: the call is recorded, then answered. *)
Definition send (rq : Request) : M Response :=
  fun w =>
    match remote w rq with
    | Responds r => (Ok r, log_request rq w)
    | Fails kind => (Raise (RequestException kind), log_request rq w)
    end.

Definition requests_get (url : string) : M Response :=
  send (mkRequest GET url None).

Definition requests_put (url : string) (data : list byte) : M Response :=
  send (mkRequest PUT url (Some data)).

Definition requests_delete (url : string) : M Response :=
  send (mkRequest DELETE url None).

(** [Response.raise_for_status]: the client and server error classes. *)
Definition raise_for_status (r : Response) : M unit :=
  if (400 <=? status_code r) && (status_code r <? 600)
  then raise (HTTPError (status_code r))
  else ret tt.

(** [Response.ok]: whether [raise_for_status] would return. *)
Definition ok (r : Response) : bool :=
  negb ((400 <=? status_code r) && (status_code r <? 600)).

(** [open(path, 'rb')] and reading the file to its end. *)
Definition read_local (path : string) : M (list byte) :=
  fun w =>
    match local_files w path with
    | Some data => (Ok data, w)
    | None => (Raise OSError, w)
    end.

(** [open(path, 'wb')] and [writelines]: [open] fails with [OSError] where
    the world does not let the path be written (a missing directory, say);
    otherwise the file holds [data] afterwards. *)
Definition store_local (path : string) (data : list byte) (w : World) : World :=
  mkWorld (remote w)
          (fun p => if String.eqb p path then Some data else local_files w p)
          (writable w) (get_temp_file_path w) (sent w) (warned w).

Definition write_local (path : string) (data : list byte) : M unit :=
  fun w =>
    if writable w path then (Ok tt, store_local path data w)
    else (Raise OSError, w).

(** [warnings.warn] *)
Definition warn (message : string) : M unit :=
  fun w =>
    (Ok tt,
     mkWorld (remote w) (local_files w) (writable w) (get_temp_file_path w)
             (sent w) (warned w ++ [message])).

Definition massert (b : bool) : M unit := lift (assert b).

(** ** The effectful operations of [https_connection] *)

(** [https_connection.close]; the answer is the connection object after the
    call. *)
Definition close (self : https_connection) : M https_connection :=
  (if negb (_is_open self)
   then warn "Double-closing HTTPS connection."
   else ret tt) ;;;
  ret (mkConnection (_connector self) false (_cwd self)).

(** [https_connection._download] *)
Definition _download (self : https_connection) (remote_path local_path : string)
  : M unit :=
  massert (is_open self) ;;;
  let remote_path := check_path self remote_path in
  url <- lift (_get_url self remote_path) ;;
  response <- requests_get url ;;
  raise_for_status response ;;;
  write_local local_path (content response).

(** What [_upload] is given as its local side: a [str], a [Path] of the
    local file system connection, or a [Path] of another connection. *)
Inductive local_source : Type :=
| LocalStr (p : string)
| LocalPath (p : string)
| ForeignPath (p : string).

(** [https_connection._upload] *)
Definition _upload (self : https_connection) (local_path : local_source)
           (remote_path : string) : M unit :=
  massert (is_open self) ;;;
  local_path <-
    match local_path with
    | LocalStr p => ret p
    | LocalPath p => ret p
    | ForeignPath _ => raise AssertionError
    end ;;
  let remote_path := check_path self remote_path in
  local_copy <- read_local local_path ;;
  response <- requests_put remote_path local_copy ;;
  raise_for_status response.

(** The arguments [open_file] passes through to the proxy file. *)
Record io_options : Type := mkOptions {
  buffering : Z;
  encoding : option string;
  errors : option string;
  newline : option string;
  closefd : bool
}.

(** [attila.fs.proxies.ProxyFile]: what [open_file] builds. *)
Record ProxyFile : Type := mkProxyFile {
  pf_path : Path;
  pf_mode : string;
  pf_options : io_options;
  proxy_path : string;
  writeback : option (local_source -> string -> M unit)
}.

Definition mode_in (mode : string) (modes : list string) : bool :=
  List.existsb (String.eqb mode) modes.

(** [https_connection.open_file] *)
Definition open_file (self : https_connection) (path mode : string)
           (options : io_options) : M ProxyFile :=
  massert (is_open self) ;;;
  let mode := PyStr.lower mode in
  let path := check_path self path in
  hint <- lift (name self path) ;;
  temp_path <- (fun w => (Ok (get_temp_file_path w hint), w)) ;;
  (if negb (mode_in mode ["w"; "wb"])
   then _download self path temp_path
   else ret tt) ;;;
  let writeback :=
    if mode_in mode ["r"; "rb"] then None else Some (_upload self) in
  ret (mkProxyFile (mkPath path self) mode options temp_path writeback).

(** [https_connection.remove] *)
Definition remove (self : https_connection) (path : string) : M unit :=
  massert (is_open self) ;;;
  let path := check_path self path in
  if is_dir self path then raise OperationNotSupportedError
  else
    url <- lift (_get_url self path) ;;
    response <- requests_delete url ;;
    raise_for_status response.

(** [https_connection.is_file] *)
Definition is_file (self : https_connection) (path : string) : M bool :=
  let path := check_path self path in
  url <- lift (_get_url self path) ;;
  response <- requests_get url ;;
  ret (ok response).

(** The operations that HTTPS has no meaning for. *)
Module Unsupported.

(** [https_connection.size] *)
Definition size (self : https_connection) (path : string) : M Z :=
  raise OperationNotSupportedError.

(** [https_connection.modified_time] *)
Definition modified_time (self : https_connection) (path : string) : M Z :=
  raise OperationNotSupportedError.

(** [https_connection.make_dir] *)
Definition make_dir (self : https_connection) (path : string)
           (overwrite clear fill : bool) (check_only : option bool) : M unit :=
  raise OperationNotSupportedError.

(** [https_connection.rename] *)
Definition rename (self : https_connection) (path new_name : string) : M unit :=
  raise OperationNotSupportedError.

(** [https_connection.list] *)
Definition list (self : https_connection) (path pattern : string)
  : M (Datatypes.list string) :=
  raise OperationNotSupportedError.

End Unsupported.

(** [HTTPSConnector.load_config_section]: [server] and [port] are the
    [Server] and [Port] options read from the section, and [super_load] is
    the loader of the framework that the method ends with, applied to the
    [server] keyword it is given. *)
Definition load_config_section {A : Type} (super_load : string -> result A)
           (section server : string) (port : option Z) : result A :=
  if String.eqb section EmptyString then Raise ValueError
  else
    let server :=
      match port with
      | Some port => server ++ ":" ++ PyStr.of_int port
      | None => server
      end in
    super_load server.

(** ** A concrete connection and world, for the examples *)

Definition example_connector : HTTPSConnector :=
  mkConnector "example.com" 443 None.

Definition example_connection : https_connection :=
  mkConnection example_connector true None.

(** Every request is answered with status 200 and the body [hi]; the local
    file [/tmp/x] holds [hi]; the files under [/tmp/] can be written. *)
Definition example_world : World :=
  mkWorld (fun _ => Responds (mkResponse 200 [x68; x69]))
          (fun p => if String.eqb p "/tmp/x" then Some [x68; x69] else None)
          (fun p => PyStr.startswith "/tmp/" p)
          (fun hint => "/tmp/" ++ hint)
          [] [].

Definition example_options : io_options :=
  mkOptions (-1) None None None true.

(** ** Vocabulary of the statements *)

(** The characters [join] strips from the ends of a segment: the slash and
    the backslash. *)
Definition slashes : string := "/\".

Definition is_slash (c : ascii) : bool := PyStr.has_char c slashes.

Fixpoint last_char (s : string) : option ascii :=
  match s with
  | EmptyString => None
  | String c EmptyString => Some c
  | String _ s' => last_char s'
  end.

(** Neither the first nor the last character of [s] is in [chars]. *)
Definition clean_ends (chars s : string) : bool :=
  match s with
  | EmptyString => true
  | String c _ => negb (PyStr.has_char c chars)
  end
  && match last_char s with
     | Some c => negb (PyStr.has_char c chars)
     | None => true
     end.

(** A character of a plain path: printable, and none of the delimiters
    [:], [?], [#] and [;] of a URL. *)
Definition plain_char (c : ascii) : bool :=
  (32 <? nat_of_ascii c)%nat && negb (PyStr.has_char c ":?#;").

(** A plain path: plain characters only, and no authority marker in front. *)
Definition plain_path (raw : string) : bool :=
  PyStr.forallb plain_char raw && negb (PyStr.startswith "//" raw).

(** What may follow the raw path: nothing, or [?] and a query string. *)
Definition query_tail (t : string) : bool :=
  match t with
  | EmptyString => true
  | String c _ => Ascii.eqb c "?"
  end.

(** The characters of a printed [int]: digits and the minus sign. *)
Definition int_char (c : ascii) : bool := PyStr.is_digit c || Ascii.eqb c "-".

(** A world whose server answers every request with status 404. *)
Definition failing_world : World :=
  mkWorld (fun _ => Responds (mkResponse 404 [x68; x69]))
          (fun p => if String.eqb p "/tmp/x" then Some [x68; x69] else None)
          (fun p => PyStr.startswith "/tmp/" p)
          (fun hint => "/tmp/" ++ hint)
          [] [].

(** A segment without any slash or backslash. *)
Definition slashless (s : string) : bool :=
  PyStr.forallb (fun c => negb (is_slash c)) s.

(** A file or directory name: not empty, plain characters, no slash or
    backslash. *)
Definition name_segment (s : string) : bool :=
  negb (String.eqb s "")
  && PyStr.forallb (fun c => plain_char c && negb (is_slash c)) s.

(** A printable character: its code is above 32. *)
Definition printable (c : ascii) : bool := (32 <? nat_of_ascii c)%nat.

(** A character of an authority without user information or brackets. *)
Definition netloc_char (c : ascii) : bool :=
  printable c && negb (PyStr.has_char c "/?#@[]").

(** A character of a host name: an authority character other than the
    colon. *)
Definition host_char (c : ascii) : bool :=
  netloc_char c && negb (Ascii.eqb c ":").

(** A character of a query string: printable, and not the fragment mark. *)
Definition query_char (c : ascii) : bool :=
  printable c && negb (Ascii.eqb c "#").

(** A raw path that can follow an authority: empty, or starting with a
    slash. *)
Definition rooted (raw : string) : bool :=
  String.eqb raw "" || PyStr.startswith "/" raw.

(** The claimed reading of [name], following the words of the design
    document: strip the query string (the text from the first [?] on), then
    take the final segment between slashes. *)
Definition query_stripped (path : string) : string :=
  match PyStr.cut "?" path with
  | Some (before, _) => before
  | None => path
  end.

Definition name_by_query_strip (path : string) : string :=
  List.last (PyStr.split "/" (query_stripped path)) "".

(** * Properties *)

(** ** Appending *)

Lemma append_empty_r (s : string) : s ++ "" = s.
Proof.
  induction s as [|c s IH]; simpl; [reflexivity | now rewrite IH].
Qed.

Lemma append_assoc (a b c : string) : (a ++ b) ++ c = a ++ b ++ c.
Proof.
  induction a as [|x a IH]; simpl; [reflexivity | now rewrite IH].
Qed.

Lemma get_url_value (self : https_connection) (p : string) :
  _get_url self p = Ok (url_of self p).
Proof.
  unfold _get_url, url_of, DEFAULT_HTTPS_PORT.
  destruct (port (_connector self) =? 443); unfold PyFormat.format; simpl;
    rewrite append_empty_r; reflexivity.
Qed.

(** ** The URL builder *)

(** C3: the URL builder answers [https://H p] when the port is the default
    443 and [https://H:P p] for any other port: the [:443] suffix is left
    out exactly when the port is the default one. *)
Theorem get_url_default_port_elision (self : https_connection) (p : string) :
  let H := server (_connector self) in
  let P := port (_connector self) in
  _get_url self p =
  Ok (if P =? 443
      then "https://" ++ H ++ p
      else "https://" ++ H ++ ":" ++ PyStr.of_int P ++ p).
Proof.
  intros H P. subst H P. exact (get_url_value self p).
Qed.

(** ** Closing *)

(** C6: [close] never raises, whatever the state of the connection.  On a
    connection that is already closed it emits the double-close warning and
    nothing else; on an open one it emits nothing.  The connection is
    closed afterwards, and no request is sent. *)
Theorem close_never_raises (self : https_connection) (w : World) :
  exists self' w',
    close self w = (Ok self', w')
    /\ is_open self' = false
    /\ _connector self' = _connector self
    /\ warned w' = (if is_open self then warned w
                    else (warned w ++ ["Double-closing HTTPS connection."])%list)
    /\ sent w' = sent w.
Proof.
  unfold close, bind, is_open.
  destruct (_is_open self); simpl;
    eexists; eexists; repeat split; reflexivity.
Qed.

(** ** Unsupported operations *)

(** C7: [list], [size], [modified_time], [make_dir] and [rename] raise
    [OperationNotSupportedError] for every connection, open or closed, and
    every argument, leaving the world as it was; [is_dir] answers false for
    every connection and path. *)
Theorem unsupported_operations (self : https_connection)
    (path pattern new_name : string) (overwrite clear fill : bool)
    (check_only : option bool) (w : World) :
  Unsupported.list self path pattern w = (Raise OperationNotSupportedError, w)
  /\ Unsupported.size self path w = (Raise OperationNotSupportedError, w)
  /\ Unsupported.modified_time self path w = (Raise OperationNotSupportedError, w)
  /\ Unsupported.make_dir self path overwrite clear fill check_only w
     = (Raise OperationNotSupportedError, w)
  /\ Unsupported.rename self path new_name w = (Raise OperationNotSupportedError, w)
  /\ is_dir self path = false.
Proof.
  repeat split.
Qed.

(** ** Existence check *)

Lemma download_open (self : https_connection) (path temp : string) (w : World) :
  is_open self = true ->
  let rq := mkRequest GET (url_of self path) None in
  _download self path temp w =
  match remote w rq with
  | Responds r =>
      if ok r then
        if writable w temp
        then (Ok tt, store_local temp (content r) (log_request rq w))
        else (Raise OSError, log_request rq w)
      else (Raise (HTTPError (status_code r)), log_request rq w)
  | Fails kind => (Raise (RequestException kind), log_request rq w)
  end.
Proof.
  intros Hopen rq.
  unfold _download, bind, massert, lift, assert, check_path.
  rewrite Hopen, get_url_value.
  unfold requests_get, send. fold rq.
  destruct (remote w rq) as [r|kind]; [|reflexivity].
  unfold raise_for_status, ok, raise, ret, write_local.
  destruct ((400 <=? status_code r) && (status_code r <? 600));
    [reflexivity|].
  cbn [negb log_request writable]. destruct (writable w temp); reflexivity.
Qed.

(** C10: [is_file] asserts nothing about [is_open]: on every connection,
    open or closed, it sends the GET request for the path's URL and answers
    whether the response status is a success, so it never fails with an
    assertion; [remove], [open_file], [_download] and [_upload] on a closed
    connection fail with [AssertionError] before doing anything. *)
Theorem is_file_ignores_is_open (k : HTTPSConnector) (cwd : option string)
    (o : bool) (path mode local : string) (src : local_source)
    (opts : io_options) (w : World) :
  let self := mkConnection k o cwd in
  let closed := mkConnection k false cwd in
  let rq := mkRequest GET (url_of self path) None in
  is_file self path w =
    (match remote w rq with
     | Responds r => Ok (ok r)
     | Fails kind => Raise (RequestException kind)
     end, log_request rq w)
  /\ is_file closed path w = is_file self path w
  /\ fst (is_file closed path w) <> Raise AssertionError
  /\ remove closed path w = (Raise AssertionError, w)
  /\ open_file closed path mode opts w = (Raise AssertionError, w)
  /\ _download closed path local w = (Raise AssertionError, w)
  /\ _upload closed src path w = (Raise AssertionError, w).
Proof.
  intros self closed rq.
  assert (E : forall c : https_connection, _connector c = k ->
            is_file c path w =
            (match remote w rq with
             | Responds r => Ok (ok r)
             | Fails kind => Raise (RequestException kind)
             end, log_request rq w)).
  { intros c Hc. unfold is_file, bind, lift, check_path.
    rewrite get_url_value.
    replace (url_of c path) with (url_of self path)
      by (unfold url_of; rewrite Hc; reflexivity).
    unfold requests_get, send. fold rq.
    destruct (remote w rq); reflexivity. }
  split; [apply E; reflexivity|].
  split; [rewrite (E closed eq_refl), (E self eq_refl); reflexivity|].
  split; [|repeat split].
  rewrite (E closed eq_refl); simpl.
  destruct (remote w rq); discriminate.
Qed.

(** ** Opening a file *)

(** C2: on an open connection [open_file] lower-cases the mode; it downloads
    the remote resource into the temporary file (one GET request, then the
    body stored under the temporary path, or the [OSError] of [open] when
    that path cannot be written) exactly when the lower-cased mode is
    neither [w] nor [wb], and touches nothing otherwise; the handle's
    write-back is the connection's [_upload], except for the lower-cased
    modes [r] and [rb], whose handle has none. *)
Theorem open_file_download_and_writeback (self : https_connection)
    (path mode hint : string) (opts : io_options) (w : World) :
  is_open self = true ->
  name self path = Ok hint ->
  let m := PyStr.lower mode in
  let temp := get_temp_file_path w hint in
  let truncating := String.eqb m "w" || String.eqb m "wb" in
  let pure_read := String.eqb m "r" || String.eqb m "rb" in
  let rq := mkRequest GET (url_of self path) None in
  let handle :=
    mkProxyFile (mkPath path self) m opts temp
                (if pure_read then None else Some (_upload self)) in
  open_file self path mode opts w =
  if truncating then (Ok handle, w)
  else
    match remote w rq with
    | Responds r =>
        if ok r then
          if writable w temp
          then (Ok handle, store_local temp (content r) (log_request rq w))
          else (Raise OSError, log_request rq w)
        else (Raise (HTTPError (status_code r)), log_request rq w)
    | Fails kind => (Raise (RequestException kind), log_request rq w)
    end.
Proof.
  intros Hopen Hname m temp truncating pure_read rq handle.
  unfold open_file, bind, massert, lift, assert, check_path.
  rewrite Hopen, Hname. fold m temp.
  unfold mode_in; simpl. rewrite !orb_false_r.
  fold truncating pure_read.
  destruct truncating; simpl.
  - reflexivity.
  - rewrite (download_open self path temp w Hopen). fold rq.
    destruct (remote w rq) as [r|kind]; [|reflexivity].
    destruct (ok r); [|reflexivity].
    destruct (writable w temp); reflexivity.
Qed.

Lemma open_file_download_and_writeback_witness :
  open_file example_connection "/a/b/c?q=1" "RB" example_options example_world =
  (Ok (mkProxyFile (mkPath "/a/b/c?q=1" example_connection) "rb" example_options
                   "/tmp/c" None),
   store_local "/tmp/c" [x68; x69]
     (log_request (mkRequest GET "https://example.com/a/b/c?q=1" None)
                  example_world)).
Proof.
  exact (open_file_download_and_writeback example_connection "/a/b/c?q=1" "RB"
           "c" example_options example_world eq_refl eq_refl).
Defined.

(** ** Upload *)

(** The request [_upload] sends on an open connection: a PUT whose target is
    the remote path as given. *)
Lemma upload_open (self : https_connection) (local remote_path : string)
    (data : list byte) (w : World) :
  is_open self = true ->
  local_files w local = Some data ->
  let rq := mkRequest PUT remote_path (Some data) in
  _upload self (LocalStr local) remote_path w =
  match remote w rq with
  | Responds r =>
      if ok r then (Ok tt, log_request rq w)
      else (Raise (HTTPError (status_code r)), log_request rq w)
  | Fails kind => (Raise (RequestException kind), log_request rq w)
  end.
Proof.
  intros Hopen Hfile rq.
  unfold _upload, bind, massert, lift, assert, check_path, ret, read_local.
  rewrite Hopen, Hfile.
  unfold requests_put, send. fold rq.
  destruct (remote w rq) as [r|kind]; [|reflexivity].
  unfold raise_for_status, ok, raise, ret.
  destruct ((400 <=? status_code r) && (status_code r <? 600)); reflexivity.
Qed.

(** C1: on the open connection to [example.com], port 443, uploading the
    local file [/tmp/x] to the remote path [/a/b] sends one PUT request
    whose target is the bare path [/a/b], while the URL of that path, which
    [_download], [remove] and [is_file] send their requests to, is
    [https://example.com/a/b]. *)
Theorem upload_targets_bare_path :
  sent (snd (_upload example_connection (LocalStr "/tmp/x") "/a/b" example_world))
  = [mkRequest PUT "/a/b" (Some [x68; x69])]
  /\ _get_url example_connection "/a/b" = Ok "https://example.com/a/b"
  /\ sent (snd (is_file example_connection "/a/b" example_world))
     = [mkRequest GET "https://example.com/a/b" None]
  /\ sent (snd (remove example_connection "/a/b" example_world))
     = [mkRequest DELETE "https://example.com/a/b" None].
Proof.
  repeat split; vm_compute; reflexivity.
Qed.

(** ** Loading a URL *)

(** C4: when the URL that [load_url] parses (the given one, with
    [https://] put in front when it has no [://]) has a scheme other than
    https, or a params segment, or a fragment, or an [@] in its authority,
    [load_url] fails with the [AssertionError] of its checks and produces no
    [Path]. *)
Theorem load_url_rejects_malformed (url : string) (u : UrlParse.ParseResult) :
  UrlParse.urlparse (with_scheme url) = Ok u ->
  PyStr.lower (UrlParse.scheme u) <> "https"
  \/ UrlParse.params u <> ""
  \/ UrlParse.fragment u <> ""
  \/ PyStr.has_char "@" (UrlParse.netloc u) = true ->
  load_url url = Raise AssertionError.
Proof.
  intros Hparse Hbad.
  unfold load_url. rewrite Hparse. simpl.
  clear Hparse.
  destruct (String.eqb_spec (UrlParse.params u) "") as [Hp|Hp];
    [|reflexivity].
  destruct (String.eqb_spec (UrlParse.fragment u) "") as [Hf|Hf];
    [|reflexivity].
  simpl.
  destruct (String.eqb_spec (PyStr.lower (UrlParse.scheme u)) "https") as [Hs|Hs];
    [|reflexivity].
  simpl.
  destruct (PyStr.has_char "@" (UrlParse.netloc u)) eqn:Hat; [reflexivity|].
  destruct Hbad as [H|[H|[H|H]]]; congruence.
Qed.

Lemma load_url_rejects_malformed_witness :
  load_url "http://example.com/a" = Raise AssertionError
  /\ load_url "https://example.com/a;v=1" = Raise AssertionError
  /\ load_url "example.com/a#top" = Raise AssertionError
  /\ load_url "https://user@example.com/a" = Raise AssertionError.
Proof.
  split; [|split; [|split]].
  - apply (load_url_rejects_malformed "http://example.com/a"
             (UrlParse.mkParseResult "http" "example.com" "/a" "" "" ""));
      [reflexivity | left; discriminate].
  - apply (load_url_rejects_malformed "https://example.com/a;v=1"
             (UrlParse.mkParseResult "https" "example.com" "/a" "v=1" "" ""));
      [reflexivity | right; left; discriminate].
  - apply (load_url_rejects_malformed "example.com/a#top"
             (UrlParse.mkParseResult "https" "example.com" "/a" "" "" "top"));
      [reflexivity | right; right; left; discriminate].
  - apply (load_url_rejects_malformed "https://user@example.com/a"
             (UrlParse.mkParseResult "https" "user@example.com" "/a" "" "" ""));
      [reflexivity | right; right; right; reflexivity].
Defined.

(** C9: the [Path] that [load_url] answers for a URL it accepts has the
    string [path + "?" + query] of the parsed URL; the question mark is
    there even when the query is empty, so that the string of a URL without
    a query is the parsed path followed by a question mark. *)
Theorem load_url_path_string (url : string) (p : Path) :
  load_url url = Ok p ->
  exists u,
    UrlParse.urlparse (with_scheme url) = Ok u
    /\ path_string p = UrlParse.path u ++ "?" ++ UrlParse.query u
    /\ (UrlParse.query u = "" -> path_string p = UrlParse.path u ++ "?").
Proof.
  unfold load_url.
  destruct (UrlParse.urlparse (with_scheme url)) as [u|e]; simpl;
    [|discriminate].
  intros H. exists u. split; [reflexivity|].
  assert (E : path_string p = UrlParse.path u ++ "?" ++ UrlParse.query u).
  { repeat match type of H with
           | rbind (assert ?b) _ = _ => destruct b; simpl in H; [|discriminate]
           end.
    match type of H with
    | rbind ?r _ = _ => destruct r as [[srv prt]|]; simpl in H; [|discriminate]
    end.
    match type of H with
    | rbind ?r _ = _ => destruct r as [k|]; simpl in H; [|discriminate]
    end.
    inversion H; reflexivity. }
  split; [exact E|].
  intros Hq. rewrite E, Hq. reflexivity.
Qed.

Lemma load_url_path_string_witness :
  exists u,
    UrlParse.urlparse (with_scheme "example.com:8443/a/b") = Ok u
    /\ path_string (mkPath "/a/b?" (connect (mkConnector "example.com" 8443 None)))
       = UrlParse.path u ++ "?" ++ UrlParse.query u
    /\ (UrlParse.query u = ""
        -> path_string (mkPath "/a/b?" (connect (mkConnector "example.com" 8443 None)))
           = UrlParse.path u ++ "?").
Proof.
  exact (load_url_path_string "example.com:8443/a/b"
           (mkPath "/a/b?" (connect (mkConnector "example.com" 8443 None)))
           eq_refl).
Defined.

(** ** Stripping *)

Section Strip.

Variable chars : string.

Let stripped (c : ascii) : bool := PyStr.has_char c chars.

Lemma lstrip_split (s : string) :
  exists pre, s = pre ++ PyStr.lstrip chars s
              /\ PyStr.forallb stripped pre = true.
Proof.
  induction s as [|d s [pre [E F]]]; simpl.
  - exists ""; split; reflexivity.
  - destruct (PyStr.has_char d chars) eqn:Hd.
    + exists (String d pre); simpl; split.
      * f_equal; exact E.
      * unfold stripped at 1. rewrite Hd; exact F.
    + exists ""; split; reflexivity.
Qed.

Lemma lstrip_head (s : string) :
  match PyStr.lstrip chars s with
  | EmptyString => True
  | String c _ => PyStr.has_char c chars = false
  end.
Proof.
  induction s as [|d s IH]; simpl; [exact I|].
  destruct (PyStr.has_char d chars) eqn:Hd; [exact IH | exact Hd].
Qed.

Lemma rstrip_split (s : string) :
  exists post, s = PyStr.rstrip chars s ++ post
               /\ PyStr.forallb stripped post = true.
Proof.
  induction s as [|d s [post [E F]]]; simpl.
  - exists ""; split; reflexivity.
  - destruct (PyStr.rstrip chars s) as [|e t] eqn:R.
    + destruct (PyStr.has_char d chars) eqn:Hd.
      * exists (String d post); simpl; split.
        -- f_equal; exact E.
        -- unfold stripped at 1. rewrite Hd; exact F.
      * exists post; simpl; split; [f_equal; exact E | exact F].
    + exists post; split; [simpl; f_equal; exact E | exact F].
Qed.

Lemma rstrip_last (s : string) :
  match last_char (PyStr.rstrip chars s) with
  | Some c => PyStr.has_char c chars = false
  | None => True
  end.
Proof.
  induction s as [|d s IH]; simpl; [exact I|].
  destruct (PyStr.rstrip chars s) as [|e t] eqn:R.
  - destruct (PyStr.has_char d chars) eqn:Hd; simpl; [exact I | exact Hd].
  - exact IH.
Qed.

Lemma strip_split (s : string) :
  exists pre post,
    s = pre ++ PyStr.strip chars s ++ post
    /\ PyStr.forallb stripped pre = true
    /\ PyStr.forallb stripped post = true.
Proof.
  destruct (lstrip_split s) as [pre [E F]].
  destruct (rstrip_split (PyStr.lstrip chars s)) as [post [E' F']].
  exists pre, post. unfold PyStr.strip.
  split; [rewrite <- E'; exact E | split; assumption].
Qed.

Lemma strip_clean_ends (s : string) :
  clean_ends chars (PyStr.strip chars s) = true.
Proof.
  unfold clean_ends, PyStr.strip.
  pose proof (rstrip_last (PyStr.lstrip chars s)) as L.
  pose proof (lstrip_head s) as Hh.
  destruct (rstrip_split (PyStr.lstrip chars s)) as [post [E _]].
  destruct (PyStr.rstrip chars (PyStr.lstrip chars s)) as [|c t] eqn:R.
  - reflexivity.
  - rewrite E in Hh. simpl in Hh. rewrite Hh.
    destruct (last_char (String c t)); [rewrite L|]; reflexivity.
Qed.

End Strip.

(** ** Joining *)

(** C5: [join] of no segment is the empty [Path] of the connection.  For a
    non-empty sequence, every segment is stripped on its own of its leading
    and trailing slashes (the characters [/] and [\]): a segment is its
    stripped form between a run of slashes before and a run after, and the
    stripped form neither starts nor ends with one.  The stripped segments
    are joined with [/], after one empty segment exactly when the first
    segment started with [/]; so [join("/a", "b/", "/c")] is [/a/b/c]. *)
Theorem join_strips_and_joins (self : https_connection) :
  join self [] = mkPath "" self
  /\ (forall first rest,
        join self (first :: rest) =
        mkPath (PyStr.join "/"
                  ((if PyStr.startswith "/" first then [""] else [])
                   ++ List.map (PyStr.strip slashes) (first :: rest))%list)
               self)
  /\ (forall segment,
        exists pre post,
          segment = pre ++ PyStr.strip slashes segment ++ post
          /\ PyStr.forallb is_slash pre = true
          /\ PyStr.forallb is_slash post = true
          /\ clean_ends slashes (PyStr.strip slashes segment) = true)
  /\ join self ["/a"; "b/"; "/c"] = mkPath "/a/b/c" self.
Proof.
  split; [reflexivity|].
  split.
  { intros first rest. unfold join, check_path, slashes.
    destruct (PyStr.startswith "/" first); reflexivity. }
  split; [|reflexivity].
  intros segment.
  destruct (strip_split slashes segment) as [pre [post [E [F G]]]].
  exists pre, post.
  split; [exact E|].
  split; [exact F|].
  split; [exact G|].
  apply strip_clean_ends.
Qed.

(** ** Parsing a plain path with a query *)

Lemma plain_char_facts (c : ascii) :
  plain_char c = true ->
  PyStr.has_char c UrlParse._WHATWG_C0_CONTROL_OR_SPACE = false
  /\ Ascii.eqb "009" c = false /\ Ascii.eqb "013" c = false
  /\ Ascii.eqb "010" c = false /\ Ascii.eqb ":" c = false
  /\ Ascii.eqb "?" c = false /\ Ascii.eqb "#" c = false
  /\ Ascii.eqb ";" c = false.
Proof.
  destruct c as [[] [] [] [] [] [] [] []]; vm_compute; intros H;
    try discriminate H; repeat split.
Qed.

Lemma plain_lacks (raw : string) :
  PyStr.forallb plain_char raw = true ->
  PyStr.has_char "009" raw = false /\ PyStr.has_char "013" raw = false
  /\ PyStr.has_char "010" raw = false /\ PyStr.has_char ":" raw = false
  /\ PyStr.has_char "?" raw = false /\ PyStr.has_char "#" raw = false
  /\ PyStr.has_char ";" raw = false.
Proof.
  induction raw as [|c raw IH]; cbn [PyStr.has_char PyStr.forallb];
    [intros _; repeat split|].
  intros H. apply andb_true_iff in H. destruct H as [Hc Hr].
  destruct (plain_char_facts c Hc) as (_ & A & B & C & D & E & F & G).
  destruct (IH Hr) as (A' & B' & C' & D' & E' & F' & G').
  rewrite A, B, C, D, E, F, G. cbn [orb]. repeat split; assumption.
Qed.

Lemma cut_app_absent (c : ascii) (raw s : string) :
  PyStr.has_char c raw = false ->
  PyStr.cut c (raw ++ s) =
  match PyStr.cut c s with
  | Some (l, r) => Some (raw ++ l, r)
  | None => None
  end.
Proof.
  induction raw as [|d raw IH]; simpl.
  - intros _. destruct (PyStr.cut c s) as [[l r]|]; reflexivity.
  - intros H. apply orb_false_iff in H. destruct H as [Hd Hr].
    rewrite Hd, (IH Hr).
    destruct (PyStr.cut c s) as [[l r]|]; reflexivity.
Qed.

Lemma remove_char_app_absent (b : ascii) (raw s : string) :
  PyStr.has_char b raw = false ->
  PyStr.remove_char b (raw ++ s) = raw ++ PyStr.remove_char b s.
Proof.
  induction raw as [|d raw IH]; simpl; [reflexivity|].
  intros H. apply orb_false_iff in H. destruct H as [Hd Hr].
  rewrite Hd, (IH Hr). reflexivity.
Qed.

Lemma forallb_app (p : ascii -> bool) (a b : string) :
  PyStr.forallb p (a ++ b) = PyStr.forallb p a && PyStr.forallb p b.
Proof.
  induction a as [|c a IH]; simpl; [reflexivity|].
  rewrite IH, andb_assoc. reflexivity.
Qed.

Lemma lstrip_keep (chars : string) (c : ascii) (s : string) :
  PyStr.has_char c chars = false ->
  PyStr.lstrip chars (String c s) = String c s.
Proof.
  intros H; simpl; rewrite H; reflexivity.
Qed.

Lemma query_tail_cases (t : string) :
  query_tail t = true -> t = "" \/ exists q, t = String "?" q.
Proof.
  destruct t as [|c q]; simpl; [left; reflexivity|].
  intros H. apply Ascii.eqb_eq in H. subst c. right; exists q; reflexivity.
Qed.

Lemma split_scheme_plain (raw t : string) :
  PyStr.forallb plain_char raw = true ->
  query_tail t = true ->
  UrlParse.split_scheme (raw ++ t) = ("", raw ++ t).
Proof.
  intros Hp Ht.
  destruct (plain_lacks raw Hp) as (_ & _ & _ & Hcolon & _).
  unfold UrlParse.split_scheme.
  rewrite (cut_app_absent ":" raw t Hcolon).
  destruct (query_tail_cases t Ht) as [->|[q ->]]; [reflexivity|].
  simpl PyStr.cut.
  destruct (PyStr.cut ":" q) as [[l r]|]; [|reflexivity].
  destruct raw as [|c0 raw']; [reflexivity|].
  simpl append. cbv beta iota.
  replace (PyStr.forallb (fun c => PyStr.has_char c UrlParse.scheme_chars)
             (String c0 (raw' ++ String "?" l))) with false.
  - rewrite andb_false_r. reflexivity.
  - symmetry. change (String c0 (raw' ++ String "?" l))
      with (String c0 raw' ++ String "?" l).
    rewrite forallb_app. simpl PyStr.forallb at 2.
    apply andb_false_r.
Qed.

Lemma lstrip_c0_plain (raw t : string) :
  PyStr.forallb plain_char raw = true ->
  query_tail t = true ->
  PyStr.lstrip UrlParse._WHATWG_C0_CONTROL_OR_SPACE (raw ++ t) = raw ++ t.
Proof.
  intros Hp Ht. destruct raw as [|c raw].
  - destruct (query_tail_cases t Ht) as [->|[q ->]]; [reflexivity|].
    apply lstrip_keep. vm_compute. reflexivity.
  - cbn [PyStr.forallb] in Hp. apply andb_true_iff in Hp. destruct Hp as [Hc _].
    apply lstrip_keep. apply (plain_char_facts c Hc).
Qed.

Lemma unsafe_removed_plain (raw t : string) :
  PyStr.forallb plain_char raw = true ->
  query_tail t = true ->
  exists t',
    query_tail t' = true
    /\ List.fold_left (fun u b => PyStr.remove_char b u)
                      UrlParse._UNSAFE_URL_BYTES_TO_REMOVE (raw ++ t)
       = raw ++ t'.
Proof.
  intros Hp Ht. destruct (plain_lacks raw Hp) as (A & B & C & _).
  exists (List.fold_left (fun u b => PyStr.remove_char b u)
                         UrlParse._UNSAFE_URL_BYTES_TO_REMOVE t).
  split.
  - destruct (query_tail_cases t Ht) as [->|[q ->]]; reflexivity.
  - unfold UrlParse._UNSAFE_URL_BYTES_TO_REMOVE. cbn [List.fold_left].
    rewrite (remove_char_app_absent "009" raw t A).
    rewrite (remove_char_app_absent "013" raw _ B).
    rewrite (remove_char_app_absent "010" raw _ C).
    reflexivity.
Qed.

Lemma no_authority_plain (raw t : string) :
  plain_path raw = true ->
  query_tail t = true ->
  PyStr.startswith "//" (raw ++ t) = false.
Proof.
  unfold plain_path. intros Hp Ht.
  apply andb_true_iff in Hp. destruct Hp as [_ Hs].
  apply negb_true_iff in Hs.
  destruct raw as [|c1 [|c2 r]].
  - destruct (query_tail_cases t Ht) as [->|[q ->]]; reflexivity.
  - destruct (query_tail_cases t Ht) as [->|[q ->]];
      cbn [append PyStr.startswith].
    + apply andb_false_r.
    + replace (Ascii.eqb "/" "?") with false by reflexivity.
      apply andb_false_r.
  - exact Hs.
Qed.

Lemma fragment_cut_plain (raw t : string) :
  PyStr.forallb plain_char raw = true ->
  query_tail t = true ->
  exists t1 f,
    query_tail t1 = true
    /\ match PyStr.cut "#" (raw ++ t) with
       | Some (u, f) => (u, f)
       | None => (raw ++ t, "")
       end = (raw ++ t1, f).
Proof.
  intros Hp Ht.
  destruct (plain_lacks raw Hp) as (_ & _ & _ & _ & _ & Hhash & _).
  rewrite (cut_app_absent "#" raw t Hhash).
  destruct (query_tail_cases t Ht) as [->|[q ->]].
  - exists "", "". split; reflexivity.
  - cbn [PyStr.cut].
    replace (Ascii.eqb "#" "?") with false by reflexivity.
    destruct (PyStr.cut "#" q) as [[l r]|].
    + exists (String "?" l), r. split; reflexivity.
    + exists (String "?" q), "". split; reflexivity.
Qed.

Lemma query_cut_plain (raw t : string) :
  PyStr.forallb plain_char raw = true ->
  query_tail t = true ->
  exists q,
    match PyStr.cut "?" (raw ++ t) with
    | Some (u, q) => (u, q)
    | None => (raw ++ t, "")
    end = (raw, q).
Proof.
  intros Hp Ht.
  destruct (plain_lacks raw Hp) as (_ & _ & _ & _ & Hq & _).
  rewrite (cut_app_absent "?" raw t Hq).
  destruct (query_tail_cases t Ht) as [->|[q ->]].
  - exists "". cbn [PyStr.cut]. rewrite append_empty_r. reflexivity.
  - exists q. cbn [PyStr.cut].
    replace (Ascii.eqb "?" "?") with true by reflexivity.
    rewrite append_empty_r. reflexivity.
Qed.

Lemma urlsplit_plain (raw t : string) :
  plain_path raw = true ->
  query_tail t = true ->
  exists q f, UrlParse.urlsplit (raw ++ t) = Ok ("", "", raw, q, f).
Proof.
  intros Hpp Ht.
  assert (Hp : PyStr.forallb plain_char raw = true).
  { unfold plain_path in Hpp. apply andb_true_iff in Hpp. apply Hpp. }
  unfold UrlParse.urlsplit.
  rewrite (lstrip_c0_plain raw t Hp Ht).
  destruct (unsafe_removed_plain raw t Hp Ht) as (t' & Ht' & ->).
  rewrite (split_scheme_plain raw t' Hp Ht').
  rewrite (no_authority_plain raw t' Hpp Ht').
  cbn [rbind].
  destruct (fragment_cut_plain raw t' Hp Ht') as (t1 & f & Ht1 & ->).
  destruct (query_cut_plain raw t1 Hp Ht1) as (q & ->).
  exists q, f. reflexivity.
Qed.

Lemma urlparse_plain (raw t : string) :
  plain_path raw = true ->
  query_tail t = true ->
  exists u, UrlParse.urlparse (raw ++ t) = Ok u /\ UrlParse.path u = raw.
Proof.
  intros Hpp Ht.
  destruct (urlsplit_plain raw t Hpp Ht) as (q & f & E).
  unfold UrlParse.urlparse. rewrite E. cbn [rbind].
  assert (Hsemi : PyStr.has_char ";" raw = false).
  { unfold plain_path in Hpp. apply andb_true_iff in Hpp.
    apply (plain_lacks raw (proj1 Hpp)). }
  rewrite Hsemi, andb_false_r.
  eexists; split; reflexivity.
Qed.

(** ** Base name and parent *)

Lemma rcut_split_last (c : ascii) (s : string) :
  match PyStr.rcut c s with
  | None => PyStr.split c s = [s]
  | Some (_, r) =>
      exists x y l, PyStr.split c s = x :: y :: l /\ List.last (y :: l) "" = r
  end.
Proof.
  induction s as [|d s IH]; [reflexivity|].
  cbn [PyStr.rcut PyStr.split].
  destruct (PyStr.rcut c s) as [[l0 r]|].
  - destruct IH as (x & y & l & E & L). rewrite E.
    destruct (Ascii.eqb c d).
    + exists "", x, (y :: l). split; [reflexivity | exact L].
    + exists (String d x), y, l. split; [reflexivity | exact L].
  - rewrite IH. destruct (Ascii.eqb c d).
    + exists "", s, []. split; reflexivity.
    + reflexivity.
Qed.

Lemma basename_last_segment (p : string) :
  PosixPath.basename p = List.last (PyStr.split "/" p) "".
Proof.
  unfold PosixPath.basename.
  pose proof (rcut_split_last "/" p) as H.
  destruct (PyStr.rcut "/" p) as [[l r]|].
  - destruct H as (x & y & l' & E & L). rewrite E. symmetry. exact L.
  - rewrite H. reflexivity.
Qed.

Lemma rcut_app (c : ascii) (s l r : string) :
  PyStr.rcut c s = Some (l, r) -> s = l ++ String c r.
Proof.
  revert l r. induction s as [|d s IH]; intros l r; [discriminate|].
  cbn [PyStr.rcut].
  destruct (PyStr.rcut c s) as [[l0 r0]|].
  - intros H; inversion H; subst. simpl. f_equal. apply IH. reflexivity.
  - destruct (Ascii.eqb_spec c d) as [->|]; [|discriminate].
    intros H; inversion H; subst. reflexivity.
Qed.

Lemma all_char_of_stripped (post : string) :
  PyStr.forallb (fun c => PyStr.has_char c "/") post = true ->
  PyStr.all_char "/" post = true.
Proof.
  unfold PyStr.all_char.
  induction post as [|c post IH]; cbn [PyStr.forallb PyStr.has_char];
    [reflexivity|].
  intros H. apply andb_true_iff in H. destruct H as [Hc Hr].
  rewrite orb_false_r in Hc. rewrite Ascii.eqb_sym, Hc. exact (IH Hr).
Qed.

Lemma dirname_basename_split (p : string) :
  exists seps,
    PyStr.all_char "/" seps = true
    /\ p = PosixPath.dirname p ++ seps ++ PosixPath.basename p.
Proof.
  unfold PosixPath.dirname, PosixPath.basename.
  destruct (PyStr.rcut "/" p) as [[before tail]|] eqn:R.
  - apply rcut_app in R.
    assert (E : p = (before ++ "/") ++ tail).
    { rewrite R, append_assoc. reflexivity. }
    destruct (negb (String.eqb (before ++ "/") "")
              && negb (PyStr.all_char "/" (before ++ "/"))).
    + destruct (rstrip_split "/" (before ++ "/")) as (post & Eh & F).
      exists post. split; [apply all_char_of_stripped; exact F|].
      rewrite <- append_assoc, <- Eh. exact E.
    + exists "". split; [reflexivity | exact E].
  - exists "". split; reflexivity.
Qed.

Lemma name_of_parsed (self : https_connection) (p : string)
    (u : UrlParse.ParseResult) :
  UrlParse.urlparse p = Ok u ->
  name self p = Ok (PosixPath.basename (UrlParse.path u)).
Proof.
  intros H. unfold name, check_path. rewrite H. reflexivity.
Qed.

Lemma dir_of_parsed (self : https_connection) (p : string)
    (u : UrlParse.ParseResult) :
  UrlParse.urlparse p = Ok u ->
  dir self p =
  Ok (if String.eqb (PosixPath.dirname (UrlParse.path u)) (UrlParse.path u)
      then None
      else Some (mkPath (PosixPath.dirname (UrlParse.path u)) self)).
Proof.
  intros H. unfold dir, check_path. rewrite H. cbn [rbind].
  destruct (String.eqb _ _); reflexivity.
Qed.

(** C8, as stated, fails: [name] does not stop at stripping the query string.
    It answers the base name of the path component of the parsed argument,
    so the params of the last segment are dropped as well: the name of
    [/a/b;v=1] is [b], while the final segment of the query-stripped text
    is [b;v=1]. *)
Lemma name_drops_more_than_the_query :
  name example_connection "/a/b;v=1" = Ok "b"
  /\ name_by_query_strip "/a/b;v=1" = "b;v=1"
  /\ name example_connection "/a/b;v=1" <> Ok (name_by_query_strip "/a/b;v=1").
Proof.
  split; [reflexivity|]. split; [reflexivity|]. discriminate.
Qed.

(** C8, amended: for every path that the URL parser accepts, [name] answers
    the base name of the path component of the parsed argument (the
    argument without scheme, authority, params, query string and fragment),
    which is that component's last segment between slashes, and [dir]
    answers the parent of that component bound to the same connection, or
    nothing when the parent is the component itself; the component is its
    parent, then slashes, then its base name.  When the argument is a plain
    raw path, possibly followed by [?] and a query string, the path
    component is that raw path, the query-stripped argument.  So
    [name("/a/b/c?q=1")] is [c], [dir("/a/b/c?q=1")] is [/a/b] and
    [dir("/")] is nothing. *)
Theorem name_and_dir_of_parsed_path (self : https_connection) (path : string)
    (u : UrlParse.ParseResult) :
  UrlParse.urlparse path = Ok u ->
  let raw := UrlParse.path u in
  name self path = Ok (PosixPath.basename raw)
  /\ PosixPath.basename raw = List.last (PyStr.split "/" raw) ""
  /\ dir self path =
     Ok (if String.eqb (PosixPath.dirname raw) raw then None
         else Some (mkPath (PosixPath.dirname raw) self))
  /\ (exists seps,
        PyStr.all_char "/" seps = true
        /\ raw = PosixPath.dirname raw ++ seps ++ PosixPath.basename raw)
  /\ (forall plain t,
        plain_path plain = true -> query_tail t = true ->
        path = plain ++ t -> raw = plain)
  /\ name self "/a/b/c?q=1" = Ok "c"
  /\ dir self "/a/b/c?q=1" = Ok (Some (mkPath "/a/b" self))
  /\ dir self "/" = Ok None.
Proof.
  intros Hu raw.
  split; [exact (name_of_parsed self path u Hu)|].
  split; [apply basename_last_segment|].
  split; [exact (dir_of_parsed self path u Hu)|].
  split; [apply dirname_basename_split|].
  split.
  { intros plain t Hpp Ht E.
    destruct (urlparse_plain plain t Hpp Ht) as (u' & Hu' & Hpath).
    rewrite <- E, Hu in Hu'. inversion Hu'; subst u'. exact Hpath. }
  split; [reflexivity|].
  split; reflexivity.
Qed.

Lemma name_and_dir_of_parsed_path_witness :
  name example_connection "svn://host/a/b;v=1?q=1#top" = Ok (PosixPath.basename "/a/b;v=1")
  /\ dir example_connection "/a/b;v=1?q=1#top" =
     Ok (if String.eqb (PosixPath.dirname "/a/b") "/a/b" then None
         else Some (mkPath (PosixPath.dirname "/a/b") example_connection)).
Proof.
  pose proof (name_and_dir_of_parsed_path example_connection
                "svn://host/a/b;v=1?q=1#top"
                (UrlParse.mkParseResult "svn" "host" "/a/b;v=1" "" "q=1" "top")
                eq_refl) as H1.
  pose proof (name_and_dir_of_parsed_path example_connection
                "/a/b;v=1?q=1#top"
                (UrlParse.mkParseResult "" "" "/a/b" "v=1" "q=1" "top")
                eq_refl) as H2.
  cbv zeta in H1, H2. split; [apply H1 | apply H2].
Defined.

(** * Further properties of the connector and the connection *)

(** ** Printing and reading a port *)

Lemma digits_acc (d : Decimal.uint) (p : positive) :
  PyInt.digits (NilEmpty.string_of_uint d) (Z.pos p) PyInt.Digit
  = Some (Z.pos (Pos.of_uint_acc d p)).
Proof.
  revert p.
  induction d as [|d IH|d IH|d IH|d IH|d IH|d IH|d IH|d IH|d IH|d IH];
    intros p; [reflexivity|..];
    cbn [NilEmpty.string_of_uint Pos.of_uint_acc];
    rewrite <- IH; cbn [PyInt.digits];
    match goal with
    | |- context [PyStr.is_digit ?c] =>
        replace (PyStr.is_digit c) with true by reflexivity
    end;
    f_equal; vm_compute (Z.of_nat _); lia.
Qed.

Lemma digits_of_uint (d : Decimal.uint) (st : PyInt.seen) :
  d <> Decimal.Nil \/ st = PyInt.Digit ->
  PyInt.digits (NilEmpty.string_of_uint d) 0 st = Some (Z.of_N (Pos.of_uint d)).
Proof.
  revert st.
  induction d as [|d IH|d IH|d IH|d IH|d IH|d IH|d IH|d IH|d IH|d IH];
    intros st H.
  - destruct H as [H| ->]; [congruence | reflexivity].
  - cbn [NilEmpty.string_of_uint Pos.of_uint].
    rewrite <- (IH PyInt.Digit (or_intror eq_refl)). reflexivity.
  - exact (digits_acc d 1).
  - exact (digits_acc d 2).
  - exact (digits_acc d 3).
  - exact (digits_acc d 4).
  - exact (digits_acc d 5).
  - exact (digits_acc d 6).
  - exact (digits_acc d 7).
  - exact (digits_acc d 8).
  - exact (digits_acc d 9).
Qed.

Lemma uint_chars (d : Decimal.uint) :
  PyStr.forallb int_char (NilEmpty.string_of_uint d) = true.
Proof.
  induction d; cbn [NilEmpty.string_of_uint PyStr.forallb];
    [reflexivity|..]; rewrite IHd; reflexivity.
Qed.

Lemma of_int_chars (n : Z) : PyStr.forallb int_char (PyStr.of_int n) = true.
Proof.
  unfold PyStr.of_int, NilZero.string_of_int, NilZero.string_of_uint.
  destruct n as [|p|p]; cbn [Z.to_int]; [reflexivity|..];
    destruct (Pos.to_uint p) eqn:E;
    try (exfalso; exact (DecimalPos.Unsigned.to_uint_nonnil p E));
    rewrite <- E; cbn [PyStr.forallb]; rewrite uint_chars; reflexivity.
Qed.

Lemma forallb_impl (P Q : ascii -> bool) (s : string) :
  (forall c, P c = true -> Q c = true) ->
  PyStr.forallb P s = true -> PyStr.forallb Q s = true.
Proof.
  intros HPQ. induction s as [|c s IH]; cbn [PyStr.forallb]; [reflexivity|].
  intros H. apply andb_true_iff in H. destruct H as [Hc Hs].
  rewrite (HPQ c Hc), (IH Hs). reflexivity.
Qed.

Lemma forallb_lacks (P : ascii -> bool) (c : ascii) (s : string) :
  P c = false -> PyStr.forallb P s = true -> PyStr.has_char c s = false.
Proof.
  intros Hc. induction s as [|d s IH]; cbn [PyStr.forallb PyStr.has_char];
    [reflexivity|].
  intros H. apply andb_true_iff in H. destruct H as [Hd Hs].
  rewrite (IH Hs), orb_false_r.
  destruct (Ascii.eqb_spec c d) as [->|]; [congruence | reflexivity].
Qed.

Lemma lstrip_space_keep (s : string) :
  PyStr.forallb (fun c => negb (PyInt.is_space c)) s = true ->
  PyInt.lstrip_space s = s.
Proof.
  destruct s as [|c s]; cbn [PyStr.forallb PyInt.lstrip_space]; [reflexivity|].
  intros H. apply andb_true_iff in H. destruct H as [Hc _].
  apply negb_true_iff in Hc. rewrite Hc. reflexivity.
Qed.

Lemma rstrip_space_keep (s : string) :
  PyStr.forallb (fun c => negb (PyInt.is_space c)) s = true ->
  PyInt.rstrip_space s = s.
Proof.
  induction s as [|c s IH]; cbn [PyStr.forallb PyInt.rstrip_space];
    [reflexivity|].
  intros H. apply andb_true_iff in H. destruct H as [Hc Hs].
  apply negb_true_iff in Hc. rewrite (IH Hs), Hc.
  destruct s; reflexivity.
Qed.

Lemma int_char_not_space (c : ascii) :
  int_char c = true -> negb (PyInt.is_space c) = true.
Proof.
  destruct c as [[] [] [] [] [] [] [] []]; vm_compute; intros H;
    try discriminate H; reflexivity.
Qed.

(** Reading back a printed [int] gives the number: [int(str(n)) == n]. *)
Lemma int_of_int (n : Z) : PyInt.int (PyStr.of_int n) = Ok n.
Proof.
  unfold PyInt.int.
  assert (Hsp : PyStr.forallb (fun c => negb (PyInt.is_space c)) (PyStr.of_int n)
                = true).
  { apply (forallb_impl int_char); [exact int_char_not_space|].
    apply of_int_chars. }
  rewrite (lstrip_space_keep _ Hsp), (rstrip_space_keep _ Hsp).
  clear Hsp.
  unfold PyStr.of_int, NilZero.string_of_int, NilZero.string_of_uint.
  destruct n as [|p|p]; cbn [Z.to_int]; [reflexivity|..].
  - pose proof (DecimalPos.Unsigned.to_uint_nonnil p) as Hnn.
    pose proof (DecimalPos.Unsigned.of_to p) as Hof.
    pose proof (digits_of_uint (Pos.to_uint p) PyInt.Nothing (or_introl Hnn)) as Hd.
    rewrite Hof in Hd.
    destruct (Pos.to_uint p) eqn:E; [congruence|..];
      cbn [NilEmpty.string_of_uint] in *;
      match goal with
      | |- context [Ascii.eqb ?c "-"] =>
          replace (Ascii.eqb c "-") with false by reflexivity;
          replace (Ascii.eqb c "+") with false by reflexivity
      end;
      rewrite Hd; reflexivity.
  - pose proof (DecimalPos.Unsigned.to_uint_nonnil p) as Hnn.
    pose proof (DecimalPos.Unsigned.of_to p) as Hof.
    pose proof (digits_of_uint (Pos.to_uint p) PyInt.Nothing (or_introl Hnn)) as Hd.
    rewrite Hof in Hd.
    destruct (Pos.to_uint p) eqn:E; [congruence|..];
      replace (Ascii.eqb "-" "-") with true by reflexivity;
      rewrite Hd; reflexivity.
Qed.

(** ** Splitting at a separator *)

Lemma has_char_app (c : ascii) (a b : string) :
  PyStr.has_char c (a ++ b) = PyStr.has_char c a || PyStr.has_char c b.
Proof.
  induction a as [|d a IH]; cbn [append PyStr.has_char]; [reflexivity|].
  rewrite IH, orb_assoc. reflexivity.
Qed.

Lemma split_nonempty (c : ascii) (s : string) : PyStr.split c s <> [].
Proof.
  destruct s as [|d s]; cbn [PyStr.split]; [discriminate|].
  destruct (PyStr.split c s); [discriminate|].
  destruct (Ascii.eqb c d); discriminate.
Qed.

Lemma split_absent (c : ascii) (s : string) :
  PyStr.has_char c s = false -> PyStr.split c s = [s].
Proof.
  induction s as [|d s IH]; cbn [PyStr.has_char PyStr.split]; [reflexivity|].
  intros H. apply orb_false_iff in H. destruct H as [Hd Hs].
  rewrite (IH Hs), Hd. reflexivity.
Qed.

Lemma split_app (c : ascii) (a s : string) :
  PyStr.split c (a ++ String c s) = (PyStr.split c a ++ PyStr.split c s)%list.
Proof.
  induction a as [|d a IH].
  - cbn [append PyStr.split app]. rewrite Ascii.eqb_refl.
    destruct (PyStr.split c s) eqn:E; [|reflexivity].
    exfalso; exact (split_nonempty c s E).
  - cbn [append PyStr.split]. rewrite IH.
    destruct (PyStr.split c a) as [|pa ra] eqn:E;
      [exfalso; exact (split_nonempty c a E)|].
    cbn [app]. destruct (Ascii.eqb c d); reflexivity.
Qed.

Lemma split_clean (c : ascii) (s : string) :
  List.Forall (fun x => PyStr.has_char c x = false) (PyStr.split c s).
Proof.
  induction s as [|d s IH]; cbn [PyStr.split].
  - constructor; [reflexivity | constructor].
  - destruct (PyStr.split c s) as [|piece rest] eqn:Es.
    + exfalso. exact (split_nonempty c s Es).
    + inversion IH as [|x l Hp Hr]; subst.
      destruct (Ascii.eqb c d) eqn:E.
      * constructor; [reflexivity | exact IH].
      * constructor; [|exact Hr]. cbn [PyStr.has_char]. rewrite E, Hp.
        reflexivity.
Qed.

Lemma of_int_no_colon (n : Z) : PyStr.has_char ":" (PyStr.of_int n) = false.
Proof.
  apply (forallb_lacks int_char); [reflexivity | apply of_int_chars].
Qed.

Lemma split_port_host_port (h : string) (n default : Z) :
  PyStr.has_char ":" h = false ->
  split_port (h ++ ":" ++ PyStr.of_int n) default = Ok (h, n).
Proof.
  intros Hh. unfold split_port.
  rewrite has_char_app. cbn [append PyStr.has_char].
  rewrite Ascii.eqb_refl, orb_true_r.
  rewrite split_app, (split_absent ":" h Hh),
    (split_absent ":" _ (of_int_no_colon n)).
  cbn [app]. rewrite int_of_int. reflexivity.
Qed.



(** ** The constructor of the connector *)

Lemma connector_init_host_port_value (h : string) (p : Z) (cwd : option string) :
  PyStr.has_char ":" h = false ->
  HTTPSConnector_init (h ++ ":" ++ PyStr.of_int p) cwd = Ok (mkConnector h p cwd).
Proof.
  intros Hh. unfold HTTPSConnector_init.
  rewrite (split_port_host_port h p DEFAULT_HTTPS_PORT Hh).
  destruct h; reflexivity.
Qed.


(** X1: the constructor reads [host:port] back.  For a host without a colon
    and any port number, the connector built from the text
    [host + ":" + str(port)] has exactly that host and that port. *)
Theorem connector_init_host_port (h : string) (p : Z) (cwd : option string) :
  PyStr.has_char ":" h = false ->
  HTTPSConnector_init (h ++ ":" ++ PyStr.of_int p) cwd = Ok (mkConnector h p cwd).
Proof.
  exact (connector_init_host_port_value h p cwd).
Qed.

Lemma connector_init_host_port_witness :
  HTTPSConnector_init ("example.com" ++ ":" ++ PyStr.of_int 8443) None
  = Ok (mkConnector "example.com" 8443 None).
Proof.
  exact (connector_init_host_port "example.com" 8443 None eq_refl).
Defined.

(** X2: a non-empty server text without a colon is taken as the host, with
    the default port 443. *)
Theorem connector_init_default_port (h : string) (cwd : option string) :
  h <> "" ->
  PyStr.has_char ":" h = false ->
  HTTPSConnector_init h cwd = Ok (mkConnector h 443 cwd).
Proof.
  intros Hne Hh. unfold HTTPSConnector_init, split_port.
  destruct (String.eqb_spec h "") as [E|_]; [contradiction|].
  rewrite Hh. reflexivity.
Qed.

Lemma connector_init_default_port_witness :
  HTTPSConnector_init "example.com" None = Ok (mkConnector "example.com" 443 None).
Proof.
  apply connector_init_default_port; [discriminate | reflexivity].
Defined.


(** ** Loading the connector from a configuration section *)

(** X4: with a named section, a [Server] option without a colon and a
    [Port] option, the server text handed on to the framework's loader is
    [host:port], and the constructor applied to it builds the connector of
    that host and port.  Without a [Port] option the server text is handed
    on as it is. *)
Theorem load_config_section_host_port (section host : string) (p : Z)
    (cwd : option string) :
  section <> "" ->
  PyStr.has_char ":" host = false ->
  load_config_section (fun server => HTTPSConnector_init server cwd)
                      section host (Some p)
  = Ok (mkConnector host p cwd)
  /\ load_config_section (fun server => HTTPSConnector_init server cwd)
                         section host None
     = HTTPSConnector_init host cwd.
Proof.
  intros Hs Hh. unfold load_config_section.
  destruct (String.eqb_spec section "") as [E|_]; [contradiction|].
  split; [apply connector_init_host_port_value; exact Hh | reflexivity].
Qed.

Lemma load_config_section_host_port_witness :
  load_config_section (fun server => HTTPSConnector_init server None)
                      "HTTPS Site" "example.com" (Some 8443)
  = Ok (mkConnector "example.com" 8443 None)
  /\ load_config_section (fun server => HTTPSConnector_init server None)
                         "HTTPS Site" "example.com" None
     = HTTPSConnector_init "example.com" None.
Proof.
  apply load_config_section_host_port; [discriminate | reflexivity].
Defined.



(** ** More on loading a URL *)

Lemma with_scheme_https (url : string) : with_scheme ("https://" ++ url) = "https://" ++ url.
Proof.
  reflexivity.
Qed.

(** X6: a URL written without [://] is loaded as the same text after
    [https://]: both give the same [Path] or the same error. *)
Theorem load_url_scheme_optional (url : string) :
  PyStr.has_sub "://" url = false ->
  load_url url = load_url ("https://" ++ url).
Proof.
  intros H. unfold load_url.
  rewrite with_scheme_https. unfold with_scheme. rewrite H. reflexivity.
Qed.

Lemma load_url_scheme_optional_witness :
  load_url "example.com:8443/a/b?x=1" = load_url ("https://" ++ "example.com:8443/a/b?x=1").
Proof.
  exact (load_url_scheme_optional "example.com:8443/a/b?x=1" eq_refl).
Defined.

Lemma load_url_inversion (url : string) (p : Path) :
  load_url url = Ok p ->
  exists u server port,
    UrlParse.urlparse (with_scheme url) = Ok u
    /\ UrlParse.params u = "" /\ UrlParse.fragment u = ""
    /\ PyStr.lower (UrlParse.scheme u) = "https"
    /\ PyStr.has_char "@" (UrlParse.netloc u) = false
    /\ split_port (UrlParse.netloc u) DEFAULT_HTTPS_PORT = Ok (server, port)
    /\ HTTPSConnector_init (server ++ ":" ++ PyStr.of_int port) None
       = Ok (_connector (connection p))
    /\ connection p = connect (_connector (connection p)).
Proof.
  unfold load_url.
  destruct (UrlParse.urlparse (with_scheme url)) as [u|e]; cbn [rbind];
    [|discriminate].
  destruct (String.eqb_spec (UrlParse.params u) "") as [Hp|]; [|discriminate].
  destruct (String.eqb_spec (UrlParse.fragment u) "") as [Hf|]; [|discriminate].
  cbn [andb assert rbind].
  destruct (String.eqb_spec (PyStr.lower (UrlParse.scheme u)) "https") as [Hs|];
    [|discriminate].
  cbn [assert rbind].
  destruct (PyStr.has_char "@" (UrlParse.netloc u)) eqn:Hat; [discriminate|].
  cbn [negb assert rbind].
  fold (split_port (UrlParse.netloc u) DEFAULT_HTTPS_PORT).
  destruct (split_port (UrlParse.netloc u) DEFAULT_HTTPS_PORT)
    as [[server port]|] eqn:Hsp; cbn [rbind]; [|discriminate].
  destruct (HTTPSConnector_init (server ++ ":" ++ PyStr.of_int port) None)
    as [k|] eqn:Hk; cbn [rbind]; [|discriminate].
  intros H. inversion H; subst p. cbn [connection].
  exists u, server, port. repeat (split; [assumption || reflexivity|]).
  reflexivity.
Qed.

Lemma split_port_host_clean (s host : string) (default n : Z) :
  split_port s default = Ok (host, n) -> PyStr.has_char ":" host = false.
Proof.
  unfold split_port.
  destruct (PyStr.has_char ":" s) eqn:Hc.
  - pose proof (split_clean ":" s) as Hcl.
    destruct (PyStr.split ":" s) as [|x [|y [|z l]]]; try discriminate.
    destruct (PyInt.int y); cbn [rbind]; [|discriminate].
    intros H; inversion H; subst. inversion Hcl; assumption.
  - intros H; inversion H; subst. exact Hc.
Qed.

(** X7: a URL that [load_url] accepts has the scheme https (in any letter
    case), no params segment, no fragment and no [@] in its authority. *)
Theorem load_url_accepts_only_wellformed (url : string) (p : Path) :
  load_url url = Ok p ->
  exists u,
    UrlParse.urlparse (with_scheme url) = Ok u
    /\ PyStr.lower (UrlParse.scheme u) = "https"
    /\ UrlParse.params u = ""
    /\ UrlParse.fragment u = ""
    /\ PyStr.has_char "@" (UrlParse.netloc u) = false.
Proof.
  intros H.
  destruct (load_url_inversion url p H)
    as (u & server & port & Hu & Hp & Hf & Hs & Hat & _).
  exists u. repeat split; assumption.
Qed.

Lemma load_url_accepts_only_wellformed_witness :
  exists u,
    UrlParse.urlparse (with_scheme "HTTPS://example.com/a?x=1") = Ok u
    /\ PyStr.lower (UrlParse.scheme u) = "https"
    /\ UrlParse.params u = ""
    /\ UrlParse.fragment u = ""
    /\ PyStr.has_char "@" (UrlParse.netloc u) = false.
Proof.
  exact (load_url_accepts_only_wellformed "HTTPS://example.com/a?x=1"
           (mkPath "/a?x=1" (connect (mkConnector "example.com" 443 None)))
           eq_refl).
Defined.

(** X8: the [Path] of an accepted URL is bound to a connection on the
    connector whose host and port are the two parts of the URL's authority:
    the text before the colon and the number after it, or the whole
    authority and 443 when it has no colon.  Printing the pair as
    [host:port] for the constructor and splitting it again loses nothing. *)
Theorem load_url_connection (url : string) (p : Path) :
  load_url url = Ok p ->
  exists u host n,
    UrlParse.urlparse (with_scheme url) = Ok u
    /\ split_port (UrlParse.netloc u) 443 = Ok (host, n)
    /\ _connector (connection p) = mkConnector host n None.
Proof.
  intros H.
  destruct (load_url_inversion url p H)
    as (u & host & n & Hu & _ & _ & _ & _ & Hsp & Hk & Hc).
  exists u, host, n. split; [exact Hu|]. split; [exact Hsp|].
  rewrite (connector_init_host_port_value host n None
             (split_port_host_clean _ _ _ _ Hsp)) in Hk.
  inversion Hk as [Hk']. reflexivity.
Qed.

Lemma load_url_connection_witness :
  exists u host n,
    UrlParse.urlparse (with_scheme "example.com:8443/a/b") = Ok u
    /\ split_port (UrlParse.netloc u) 443 = Ok (host, n)
    /\ _connector (connection (mkPath "/a/b?" (connect (mkConnector "example.com" 8443 None))))
       = mkConnector host n None.
Proof.
  exact (load_url_connection "example.com:8443/a/b"
           (mkPath "/a/b?" (connect (mkConnector "example.com" 8443 None)))
           eq_refl).
Defined.

(** ** More on names and parents *)

Lemma rcut_none_clean (c : ascii) (s : string) :
  PyStr.rcut c s = None -> PyStr.has_char c s = false.
Proof.
  induction s as [|d s IH]; cbn [PyStr.rcut PyStr.has_char]; [reflexivity|].
  destruct (PyStr.rcut c s) as [[l r]|]; [discriminate|].
  destruct (Ascii.eqb c d); [discriminate|].
  intros _. exact (IH eq_refl).
Qed.

Lemma rcut_tail_clean (c : ascii) (s l r : string) :
  PyStr.rcut c s = Some (l, r) -> PyStr.has_char c r = false.
Proof.
  revert l r. induction s as [|d s IH]; intros l r; [discriminate|].
  cbn [PyStr.rcut].
  destruct (PyStr.rcut c s) as [[l0 r0]|] eqn:E.
  - intros H; inversion H; subst. exact (IH _ _ eq_refl).
  - destruct (Ascii.eqb c d); [|discriminate].
    intros H; inversion H; subst. exact (rcut_none_clean c r E).
Qed.

Lemma basename_no_slash (raw : string) :
  PyStr.has_char "/" (PosixPath.basename raw) = false.
Proof.
  unfold PosixPath.basename.
  destruct (PyStr.rcut "/" raw) as [[l r]|] eqn:E.
  - exact (rcut_tail_clean _ _ _ _ E).
  - exact (rcut_none_clean _ _ E).
Qed.

(** X9: whatever the path, the name that [name] answers contains no slash. *)
Theorem name_has_no_slash (self : https_connection) (path n : string) :
  name self path = Ok n -> PyStr.has_char "/" n = false.
Proof.
  unfold name, check_path.
  destruct (UrlParse.urlparse path) as [u|]; cbn [rbind]; [|discriminate].
  intros H; inversion H; subst. apply basename_no_slash.
Qed.

Lemma name_has_no_slash_witness :
  PyStr.has_char "/" "c;v=1" = false.
Proof.
  exact (name_has_no_slash example_connection "svn://host/a/b/c;v=1?q#f" "c;v=1"
           eq_refl).
Defined.

Lemma length_append (a b : string) :
  String.length (a ++ b) = (String.length a + String.length b)%nat.
Proof.
  induction a as [|c a IH]; cbn [append String.length]; [reflexivity|].
  rewrite IH. reflexivity.
Qed.

Lemma last_char_snoc (a : string) (c : ascii) :
  last_char (a ++ String c "") = Some c.
Proof.
  induction a as [|d a IH]; [reflexivity|].
  cbn [append last_char]. rewrite IH.
  destruct (a ++ String c "") eqn:E; [|reflexivity].
  destruct a; discriminate.
Qed.

Lemma length_zero_empty (s : string) : String.length s = 0%nat -> s = "".
Proof.
  destruct s; [reflexivity | discriminate].
Qed.

Lemma all_slashes_no_tail (t : string) :
  PyStr.all_char "/" t = true -> PyStr.has_char "/" t = false -> t = "".
Proof.
  destruct t as [|d t]; [reflexivity|].
  unfold PyStr.all_char. cbn [PyStr.forallb PyStr.has_char].
  intros H1 H2. apply andb_true_iff in H1. apply orb_false_iff in H2.
  destruct H1 as [H1 _], H2 as [H2 _]. congruence.
Qed.

(** The parent is the path itself exactly for the empty path and the paths
    made of slashes only. *)
Lemma dirname_fixed_iff (raw : string) :
  PosixPath.dirname raw = raw <-> PyStr.all_char "/" raw = true.
Proof.
  unfold PosixPath.dirname.
  destruct (PyStr.rcut "/" raw) as [[before tail]|] eqn:R.
  - pose proof (rcut_tail_clean _ _ _ _ R) as Htail.
    apply rcut_app in R.
    assert (E : raw = (before ++ "/") ++ tail).
    { rewrite R, append_assoc. reflexivity. }
    assert (Hne : String.eqb (before ++ "/") "" = false).
    { destruct before; reflexivity. }
    rewrite Hne. cbn [negb andb].
    destruct (PyStr.all_char "/" (before ++ "/")) eqn:Hall; cbn [negb].
    + split.
      * intros H. rewrite <- H. exact Hall.
      * intros H. rewrite E in H. unfold PyStr.all_char in H.
        rewrite forallb_app in H. apply andb_true_iff in H.
        destruct H as [_ Ht].
        rewrite (all_slashes_no_tail tail Ht Htail) in E.
        rewrite append_empty_r in E. symmetry. exact E.
    + split.
      * intros H. exfalso.
        destruct (rstrip_split "/" (before ++ "/")) as (post & Eh & _).
        pose proof (rstrip_last "/" (before ++ "/")) as Hl.
        assert (Hlen : String.length (PyStr.rstrip "/" (before ++ "/"))
                       = String.length raw) by (rewrite H; reflexivity).
        rewrite E in Hlen.
        pose proof (f_equal String.length Eh) as Hlen'.
        rewrite !length_append in Hlen, Hlen'.
        assert (Hpost : post = "") by (apply length_zero_empty; lia).
        rewrite Hpost, append_empty_r in Eh.
        rewrite <- Eh, last_char_snoc in Hl. discriminate Hl.
      * intros H. exfalso. rewrite E in H. unfold PyStr.all_char in H, Hall.
        rewrite forallb_app in H. apply andb_true_iff in H.
        destruct H as [H _]. congruence.
  - cbn [negb andb String.eqb]. split.
    + intros H. rewrite <- H. reflexivity.
    + intros H. apply rcut_none_clean in R.
      destruct raw as [|d raw]; [reflexivity|].
      unfold PyStr.all_char in H. cbn [PyStr.forallb PyStr.has_char] in H, R.
      apply andb_true_iff in H. apply orb_false_iff in R.
      destruct H as [H _], R as [R _]. congruence.
Qed.

(** X10: [dir] answers no parent exactly when the raw path (the path of the
    parsed argument) is empty or made of slashes only; every other path has
    a parent. *)
Theorem dir_none_iff_root (self : https_connection) (path : string)
    (u : UrlParse.ParseResult) :
  UrlParse.urlparse path = Ok u ->
  dir self path = Ok None <-> PyStr.all_char "/" (UrlParse.path u) = true.
Proof.
  intros Hu. rewrite (dir_of_parsed self path u Hu).
  rewrite <- dirname_fixed_iff.
  destruct (String.eqb_spec (PosixPath.dirname (UrlParse.path u)) (UrlParse.path u))
    as [E|E]; split; intros H; try reflexivity; try assumption;
    [discriminate | contradiction].
Qed.

Lemma dir_none_iff_root_witness :
  dir example_connection "/?q=1" = Ok None <-> PyStr.all_char "/" "/" = true.
Proof.
  exact (dir_none_iff_root example_connection "/?q=1"
           (UrlParse.mkParseResult "" "" "/" "" "q=1" "") eq_refl).
Defined.

(** X11: a parent that [dir] answers is bound to the same connection and is
    strictly shorter than the raw path, so walking up with [dir] ends. *)
Theorem dir_parent_shorter (self : https_connection) (path : string)
    (u : UrlParse.ParseResult) (d : Path) :
  UrlParse.urlparse path = Ok u ->
  dir self path = Ok (Some d) ->
  connection d = self
  /\ (String.length (path_string d) < String.length (UrlParse.path u))%nat.
Proof.
  intros Hu. rewrite (dir_of_parsed self path u Hu).
  destruct (String.eqb_spec (PosixPath.dirname (UrlParse.path u)) (UrlParse.path u))
    as [E|E]; [discriminate|].
  intros H; inversion H; subst d; cbn [connection path_string].
  split; [reflexivity|].
  destruct (dirname_basename_split (UrlParse.path u)) as (seps & _ & Es).
  pose proof (f_equal String.length Es) as Hlen.
  rewrite !length_append in Hlen.
  destruct (Nat.eq_dec (String.length seps + String.length
                          (PosixPath.basename (UrlParse.path u))) 0) as [Z|Z];
    [|lia].
  exfalso. apply E.
  assert (seps = "") as Hs by (apply length_zero_empty; lia).
  assert (PosixPath.basename (UrlParse.path u) = "") as Hb
      by (apply length_zero_empty; lia).
  rewrite Hs, Hb in Es. cbn [append] in Es. rewrite append_empty_r in Es.
  symmetry. exact Es.
Qed.

Lemma dir_parent_shorter_witness :
  connection (mkPath "/a/b" example_connection) = example_connection
  /\ (String.length (path_string (mkPath "/a/b" example_connection))
      < String.length "/a/b/c")%nat.
Proof.
  exact (dir_parent_shorter example_connection "/a/b/c?q=1"
           (UrlParse.mkParseResult "" "" "/a/b/c" "" "q=1" "")
           (mkPath "/a/b" example_connection) eq_refl eq_refl).
Defined.

(** ** Download, existence and removal *)


(** X12: on an open connection, when the GET of the path's URL is answered
    with a status outside 400..599 and the destination can be opened for
    writing, [_download] succeeds, reading the destination file afterwards
    gives the response body, and every other local file is as before. *)
Theorem download_then_read (self : https_connection) (path temp : string)
    (r : Response) (w : World) :
  is_open self = true ->
  remote w (mkRequest GET (url_of self path) None) = Responds r ->
  ok r = true ->
  writable w temp = true ->
  exists w',
    _download self path temp w = (Ok tt, w')
    /\ read_local temp w' = (Ok (content r), w')
    /\ (forall other, other <> temp -> local_files w' other = local_files w other).
Proof.
  intros Hopen Hr Hok Hw.
  rewrite (download_open self path temp w Hopen). cbv zeta.
  rewrite Hr, Hok, Hw.
  eexists. split; [reflexivity|]. split.
  - unfold read_local, store_local. cbn [local_files].
    rewrite String.eqb_refl. reflexivity.
  - intros other Hne. unfold store_local, log_request. cbn [local_files].
    destruct (String.eqb_spec other temp); [contradiction | reflexivity].
Qed.

Lemma download_then_read_witness :
  exists w',
    _download example_connection "/a/b" "/tmp/b" example_world = (Ok tt, w')
    /\ read_local "/tmp/b" w' = (Ok [x68; x69], w')
    /\ (forall other, other <> "/tmp/b" ->
        local_files w' other = local_files example_world other).
Proof.
  exact (download_then_read example_connection "/a/b" "/tmp/b"
           (mkResponse 200 [x68; x69]) example_world eq_refl eq_refl eq_refl
           eq_refl).
Defined.



(** X14: on an open connection, and for a destination that can be opened
    for writing, [is_file] answers true exactly when a download of the same
    path, from the same world, succeeds: both send the same GET and judge
    its status alike.  Whatever the destination, a download that succeeds
    means [is_file] answers true. *)
Theorem is_file_iff_download_succeeds (self : https_connection)
    (path temp : string) (w : World) :
  is_open self = true ->
  (writable w temp = true ->
   fst (is_file self path w) = Ok true
   <-> fst (_download self path temp w) = Ok tt)
  /\ (fst (_download self path temp w) = Ok tt ->
      fst (is_file self path w) = Ok true).
Proof.
  intros Hopen.
  rewrite (download_open self path temp w Hopen). cbv zeta.
  unfold is_file, bind, lift, check_path, requests_get, send, ret.
  rewrite get_url_value.
  destruct (remote w _) as [r|kind]; cbn [fst].
  - destruct (ok r); cbn [fst].
    + split.
      * intros Hw; rewrite Hw. split; reflexivity.
      * reflexivity.
    + split; [intros _; split|]; discriminate.
  - split; [intros _; split|]; discriminate.
Qed.

Lemma is_file_iff_download_succeeds_witness :
  fst (is_file example_connection "/a/b" example_world) = Ok true
  <-> fst (_download example_connection "/a/b" "/tmp/b" example_world) = Ok tt.
Proof.
  exact (proj1 (is_file_iff_download_succeeds example_connection "/a/b" "/tmp/b"
                  example_world eq_refl) eq_refl).
Defined.

(** X15: on an open connection [remove] sends exactly one request, the
    DELETE of the path's URL; it succeeds exactly when that request is
    answered with a status outside 400..599; it never answers with
    [OperationNotSupportedError] and never touches a local file. *)
Theorem remove_sends_one_delete (self : https_connection) (path : string)
    (w : World) :
  is_open self = true ->
  let rq := mkRequest DELETE (url_of self path) None in
  sent (snd (remove self path w)) = (sent w ++ [rq])%list
  /\ (fst (remove self path w) = Ok tt
      <-> exists r, remote w rq = Responds r /\ ok r = true)
  /\ fst (remove self path w) <> Raise OperationNotSupportedError
  /\ local_files (snd (remove self path w)) = local_files w.
Proof.
  intros Hopen rq.
  unfold remove, bind, massert, lift, assert, check_path, is_dir.
  rewrite Hopen, get_url_value.
  unfold requests_delete, send. fold rq.
  destruct (remote w rq) as [r|kind].
  - unfold raise_for_status, ok, raise, ret.
    destruct ((400 <=? status_code r) && (status_code r <? 600)) eqn:Hc;
      cbn [fst snd negb]; (split; [reflexivity|]);
      (split; [|split; [discriminate | reflexivity]]).
    + split; [discriminate|]. intros (r' & E & Hok). inversion E; subst r'.
      rewrite Hc in Hok. discriminate Hok.
    + split; [intros _; exists r; rewrite Hc; split; reflexivity | reflexivity].
  - cbn [fst snd]. split; [reflexivity|].
    split; [|split; [discriminate | reflexivity]].
    split; [discriminate|]. intros (r' & E & _). discriminate E.
Qed.

Lemma remove_sends_one_delete_witness :
  sent (snd (remove example_connection "/a/b" failing_world))
  = (sent failing_world ++ [mkRequest DELETE (url_of example_connection "/a/b") None])%list
  /\ fst (remove example_connection "/a/b" failing_world) <> Raise OperationNotSupportedError.
Proof.
  pose proof (remove_sends_one_delete example_connection "/a/b" failing_world
                eq_refl) as H.
  cbv zeta in H. split; apply H.
Defined.

(** ** Upload *)

(** X16: on an open connection [_upload] takes its source from the local
    file system only.  A [Path] of another connection fails with
    [AssertionError]; a [Path] of the local file system is used as its
    string; and when the local file cannot be opened the failure is the
    [OSError] of [open], before any request is sent. *)
Theorem upload_source_is_local (self : https_connection)
    (local remote_path : string) (w : World) :
  is_open self = true ->
  _upload self (ForeignPath local) remote_path w = (Raise AssertionError, w)
  /\ _upload self (LocalPath local) remote_path w
     = _upload self (LocalStr local) remote_path w
  /\ (local_files w local = None ->
      _upload self (LocalStr local) remote_path w = (Raise OSError, w)).
Proof.
  intros Hopen.
  unfold _upload, bind, massert, lift, assert, raise, ret, read_local.
  rewrite Hopen.
  split; [reflexivity|]. split; [reflexivity|].
  intros Hnone. rewrite Hnone. reflexivity.
Qed.

Lemma upload_source_is_local_witness :
  _upload example_connection (ForeignPath "/tmp/x") "/a/b" example_world
  = (Raise AssertionError, example_world)
  /\ _upload example_connection (LocalStr "/tmp/none") "/a/b" example_world
     = (Raise OSError, example_world).
Proof.
  pose proof (upload_source_is_local example_connection "/tmp/x" "/a/b"
                example_world eq_refl) as H1.
  pose proof (upload_source_is_local example_connection "/tmp/none" "/a/b"
                example_world eq_refl) as H2.
  split; [apply H1 | apply H2; reflexivity].
Defined.


(** ** Closing, then using *)

(** X18: after [close], whatever the connection was, [remove], [open_file],
    [_download] and [_upload] fail with [AssertionError] and do nothing,
    and a second [close] answers the same closed connection, adding one
    double-close warning and nothing else. *)
Theorem closed_connection_refuses (self : https_connection)
    (path mode temp : string) (src : local_source) (opts : io_options)
    (w : World) :
  exists self' w',
    close self w = (Ok self', w')
    /\ remove self' path w' = (Raise AssertionError, w')
    /\ open_file self' path mode opts w' = (Raise AssertionError, w')
    /\ _download self' path temp w' = (Raise AssertionError, w')
    /\ _upload self' src path w' = (Raise AssertionError, w')
    /\ fst (close self' w') = Ok self'
    /\ warned (snd (close self' w'))
       = (warned w' ++ ["Double-closing HTTPS connection."])%list
    /\ sent (snd (close self' w')) = sent w'
    /\ local_files (snd (close self' w')) = local_files w'.
Proof.
  unfold close, bind.
  destruct (_is_open self); cbn [negb]; unfold warn, ret;
    eexists; eexists; (split; [reflexivity|]); repeat split.
Qed.

(** ** The URL of a path *)

Lemma append_cancel_l (a x y : string) : a ++ x = a ++ y -> x = y.
Proof.
  induction a as [|c a IH]; cbn [append]; [auto|].
  intros H; inversion H; auto.
Qed.

(** X19: on one connection two paths have the same URL only if they are the
    same path. *)
Theorem get_url_injective (self : https_connection) (p q : string) :
  _get_url self p = _get_url self q -> p = q.
Proof.
  rewrite !get_url_value. unfold url_of.
  intros H. inversion H as [E]. clear H.
  destruct (port (_connector self) =? 443).
  - apply (append_cancel_l ("https://" ++ server (_connector self))).
    rewrite !append_assoc. exact E.
  - apply (append_cancel_l ("https://" ++ server (_connector self) ++ ":"
                            ++ PyStr.of_int (port (_connector self)))).
    rewrite !append_assoc. exact E.
Qed.

Lemma get_url_injective_witness : "/a/b" = "/a/b".
Proof.
  exact (get_url_injective example_connection "/a/b" "/a/b" eq_refl).
Defined.

(** ** More on opening a file *)

(** X20: on an open connection, a path whose name cannot be computed (the
    parser refuses it) makes [open_file] fail with the parser's error
    before any request is sent or any file written. *)
Theorem open_file_unparsable_path (self : https_connection)
    (path mode : string) (opts : io_options) (e : exn) (w : World) :
  is_open self = true ->
  name self path = Raise e ->
  open_file self path mode opts w = (Raise e, w).
Proof.
  intros Hopen Hname.
  unfold open_file, bind, massert, lift, assert, check_path.
  rewrite Hopen, Hname. reflexivity.
Qed.

Lemma open_file_unparsable_path_witness :
  open_file example_connection "//[::1/a" "rb" example_options example_world
  = (Raise ValueError, example_world).
Proof.
  exact (open_file_unparsable_path example_connection "//[::1/a" "rb"
           example_options ValueError example_world eq_refl eq_refl).
Defined.

(** X21: whatever its arguments and its outcome, [open_file] sends no
    request other than the GET of the path's URL, once at most, and emits
    no warning: the upload is left to the handle's write-back. *)
Theorem open_file_traffic (self : https_connection) (path mode : string)
    (opts : io_options) (w : World) :
  let w' := snd (open_file self path mode opts w) in
  warned w' = warned w
  /\ (sent w' = sent w
      \/ sent w' = (sent w ++ [mkRequest GET (url_of self path) None])%list).
Proof.
  cbv zeta.
  unfold open_file, bind, massert, lift, assert, check_path.
  destruct (is_open self) eqn:Hopen; [|split; [|left]; reflexivity].
  destruct (name self path) as [hint|e]; [|split; [|left]; reflexivity].
  destruct (negb (mode_in (PyStr.lower mode) ["w"; "wb"]));
    [|split; [|left]; reflexivity].
  rewrite (download_open self path _ w Hopen). cbv zeta.
  destruct (remote w _) as [r|kind].
  - destruct (ok r); [destruct (writable w _)|];
      (split; [reflexivity | right; reflexivity]).
  - split; [reflexivity | right; reflexivity].
Qed.

(** ** Joining, then splitting, naming and walking up *)

Lemma rstrip_keep (chars s : string) :
  PyStr.forallb (fun c => negb (PyStr.has_char c chars)) s = true ->
  PyStr.rstrip chars s = s.
Proof.
  induction s as [|c s IH]; cbn [PyStr.forallb PyStr.rstrip]; [reflexivity|].
  intros H. apply andb_true_iff in H. destruct H as [Hc Hs].
  apply negb_true_iff in Hc. rewrite (IH Hs), Hc.
  destruct s; reflexivity.
Qed.

Lemma lstrip_keep_all (chars s : string) :
  PyStr.forallb (fun c => negb (PyStr.has_char c chars)) s = true ->
  PyStr.lstrip chars s = s.
Proof.
  destruct s as [|c s]; cbn [PyStr.forallb PyStr.lstrip]; [reflexivity|].
  intros H. apply andb_true_iff in H. destruct H as [Hc _].
  apply negb_true_iff in Hc. rewrite Hc. reflexivity.
Qed.

Lemma strip_slashless (s : string) :
  slashless s = true -> PyStr.strip slashes s = s.
Proof.
  intros H. unfold PyStr.strip.
  rewrite (lstrip_keep_all slashes s H). exact (rstrip_keep slashes s H).
Qed.

Lemma slashless_no_slash (s : string) :
  slashless s = true -> PyStr.has_char "/" s = false.
Proof.
  apply forallb_lacks. reflexivity.
Qed.

Lemma slashless_start (s : string) :
  slashless s = true -> PyStr.startswith "/" s = false.
Proof.
  destruct s as [|c s]; [reflexivity|].
  unfold slashless. cbn [PyStr.forallb PyStr.startswith].
  intros H. apply andb_true_iff in H. destruct H as [Hc _].
  apply negb_true_iff in Hc. unfold is_slash, slashes in Hc.
  cbn [PyStr.has_char] in Hc. apply orb_false_iff in Hc.
  destruct Hc as [Hc _]. rewrite Ascii.eqb_sym, Hc. reflexivity.
Qed.

Lemma map_strip_slashless (l : list string) :
  List.forallb slashless l = true ->
  List.map (PyStr.strip slashes) l = l.
Proof.
  induction l as [|x l IH]; cbn [List.forallb List.map]; [reflexivity|].
  intros H. apply andb_true_iff in H. destruct H as [Hx Hl].
  rewrite (strip_slashless x Hx), (IH Hl). reflexivity.
Qed.

Lemma join_slashless (self : https_connection) (l : list string) :
  List.forallb slashless l = true ->
  join self l = mkPath (PyStr.join "/" l) self.
Proof.
  destruct l as [|x l]; [reflexivity|].
  intros H. unfold join, check_path.
  change (List.map (fun element => PyStr.strip "/\" element) (x :: l))
    with (List.map (PyStr.strip slashes) (x :: l)).
  rewrite (map_strip_slashless _ H).
  cbn [List.forallb] in H. apply andb_true_iff in H. destruct H as [Hx _].
  rewrite (slashless_start x Hx). reflexivity.
Qed.

Lemma split_join (l : list string) :
  l <> [] ->
  List.forallb slashless l = true ->
  PyStr.split "/" (PyStr.join "/" l) = l.
Proof.
  induction l as [|x l IH]; [congruence|].
  intros _ H. cbn [List.forallb] in H. apply andb_true_iff in H.
  destruct H as [Hx Hl].
  destruct l as [|y l].
  - cbn [PyStr.join]. exact (split_absent "/" x (slashless_no_slash x Hx)).
  - change (PyStr.join "/" (x :: y :: l))
      with (x ++ String "/" (PyStr.join "/" (y :: l))).
    rewrite split_app, (split_absent "/" x (slashless_no_slash x Hx)).
    rewrite IH; [reflexivity | discriminate | exact Hl].
Qed.

(** X22: joining segments that contain no slash or backslash keeps them as
    they are, and splitting the joined path at its slashes gives the
    segments back. *)
Theorem join_then_split (self : https_connection) (l : list string) :
  l <> [] ->
  List.forallb slashless l = true ->
  path_string (join self l) = PyStr.join "/" l
  /\ PyStr.split "/" (path_string (join self l)) = l.
Proof.
  intros Hne H. rewrite (join_slashless self l H). cbn [path_string].
  split; [reflexivity | exact (split_join l Hne H)].
Qed.

Lemma join_then_split_witness :
  path_string (join example_connection ["a"; ""; "b c"]) = PyStr.join "/" ["a"; ""; "b c"]
  /\ PyStr.split "/" (path_string (join example_connection ["a"; ""; "b c"]))
     = ["a"; ""; "b c"].
Proof.
  apply join_then_split; [discriminate | reflexivity].
Defined.

Lemma name_segment_parts (s : string) :
  name_segment s = true ->
  s <> "" /\ slashless s = true /\ PyStr.forallb plain_char s = true.
Proof.
  unfold name_segment, slashless. intros H.
  apply andb_true_iff in H. destruct H as [Hne H].
  split; [|split].
  - intros ->. discriminate Hne.
  - apply (forallb_impl (fun c => plain_char c && negb (is_slash c)));
      [|exact H].
    intros c Hc. apply andb_true_iff in Hc. apply Hc.
  - apply (forallb_impl (fun c => plain_char c && negb (is_slash c)));
      [|exact H].
    intros c Hc. apply andb_true_iff in Hc. apply Hc.
Qed.

Lemma name_segments_slashless (l : list string) :
  List.forallb name_segment l = true -> List.forallb slashless l = true.
Proof.
  induction l as [|x l IH]; cbn [List.forallb]; [reflexivity|].
  intros H. apply andb_true_iff in H. destruct H as [Hx Hl].
  destruct (name_segment_parts x Hx) as (_ & Hs & _).
  rewrite Hs, (IH Hl). reflexivity.
Qed.

Lemma join_plain (l : list string) :
  List.forallb name_segment l = true ->
  PyStr.forallb plain_char (PyStr.join "/" l) = true.
Proof.
  induction l as [|x l IH]; cbn [List.forallb]; [reflexivity|].
  intros H. apply andb_true_iff in H. destruct H as [Hx Hl].
  destruct (name_segment_parts x Hx) as (_ & _ & Hp).
  destruct l as [|y l]; [exact Hp|].
  change (PyStr.join "/" (x :: y :: l))
    with (x ++ String "/" (PyStr.join "/" (y :: l))).
  rewrite forallb_app, Hp. cbn [PyStr.forallb andb].
  rewrite (IH Hl). reflexivity.
Qed.

Lemma join_head (x : string) (l : list string) :
  exists rest, PyStr.join "/" (x :: l) = x ++ rest.
Proof.
  destruct l as [|y l].
  - exists "". cbn [PyStr.join]. rewrite append_empty_r. reflexivity.
  - eexists. reflexivity.
Qed.

Lemma join_no_leading_slash (x : string) (l : list string) :
  name_segment x = true ->
  PyStr.startswith "/" (PyStr.join "/" (x :: l)) = false.
Proof.
  intros Hx. destruct (name_segment_parts x Hx) as (Hne & Hs & _).
  destruct (join_head x l) as [rest ->].
  destruct x as [|c x]; [congruence|].
  pose proof (slashless_start _ Hs) as H.
  cbn [PyStr.startswith append] in *. exact H.
Qed.

Lemma join_snoc (init : list string) (z : string) :
  init <> [] ->
  PyStr.join "/" (init ++ [z]) = PyStr.join "/" init ++ String "/" z.
Proof.
  induction init as [|x init IH]; [congruence|].
  intros _. destruct init as [|y init]; [reflexivity|].
  change (PyStr.join "/" ((x :: y :: init) ++ [z]))
    with (x ++ String "/" (PyStr.join "/" ((y :: init) ++ [z]))).
  rewrite IH by discriminate.
  change (PyStr.join "/" (x :: y :: init))
    with (x ++ String "/" (PyStr.join "/" (y :: init))).
  rewrite append_assoc. reflexivity.
Qed.

Lemma rcut_absent (c : ascii) (s : string) :
  PyStr.has_char c s = false -> PyStr.rcut c s = None.
Proof.
  induction s as [|d s IH]; cbn [PyStr.has_char PyStr.rcut]; [reflexivity|].
  intros H. apply orb_false_iff in H. destruct H as [Hd Hs].
  rewrite (IH Hs), Hd. reflexivity.
Qed.

Lemma rcut_app_absent (c : ascii) (a z : string) :
  PyStr.has_char c z = false ->
  PyStr.rcut c (a ++ String c z) = Some (a, z).
Proof.
  intros Hz. induction a as [|d a IH]; cbn [append PyStr.rcut].
  - rewrite (rcut_absent c z Hz), Ascii.eqb_refl. reflexivity.
  - rewrite IH. reflexivity.
Qed.

Lemma rstrip_snoc (chars a : string) (d : ascii) :
  PyStr.has_char d chars = true ->
  PyStr.rstrip chars (a ++ String d "") = PyStr.rstrip chars a.
Proof.
  intros Hd. induction a as [|c a IH]; cbn [append PyStr.rstrip].
  - rewrite Hd. reflexivity.
  - rewrite IH. reflexivity.
Qed.

Lemma rstrip_keep_last (chars s : string) (c : ascii) :
  last_char s = Some c ->
  PyStr.has_char c chars = false ->
  PyStr.rstrip chars s = s.
Proof.
  intros Hl Hc. induction s as [|d s IH]; [reflexivity|].
  cbn [PyStr.rstrip]. destruct s as [|e s'].
  - cbn [last_char] in Hl. inversion Hl; subst d.
    cbn [PyStr.rstrip]. rewrite Hc. reflexivity.
  - rewrite (IH Hl). reflexivity.
Qed.

Lemma last_char_forallb (P : ascii -> bool) (s : string) :
  s <> "" -> PyStr.forallb P s = true ->
  exists c, last_char s = Some c /\ P c = true.
Proof.
  induction s as [|d s IH]; [congruence|].
  intros _ H. cbn [PyStr.forallb] in H. apply andb_true_iff in H.
  destruct H as [Hd Hs]. destruct s as [|e s'].
  - exists d. split; [reflexivity | exact Hd].
  - destruct (IH ltac:(discriminate) Hs) as (c & Hc & HP).
    exists c. split; [exact Hc | exact HP].
Qed.

Lemma last_char_app (a b : string) :
  b <> "" -> last_char (a ++ b) = last_char b.
Proof.
  intros Hb. induction a as [|d a IH]; [reflexivity|].
  cbn [append last_char]. rewrite IH.
  destruct (a ++ b) eqn:E; [|reflexivity].
  destruct a; [cbn [append] in E; congruence | discriminate].
Qed.

Lemma join_last_char (l : list string) :
  l <> [] ->
  List.forallb name_segment l = true ->
  exists c, last_char (PyStr.join "/" l) = Some c /\ is_slash c = false.
Proof.
  induction l as [|x l IH]; [congruence|].
  intros _ H. cbn [List.forallb] in H. apply andb_true_iff in H.
  destruct H as [Hx Hl]. destruct l as [|y l].
  - destruct (name_segment_parts x Hx) as (Hne & Hs & _).
    destruct (last_char_forallb _ x Hne Hs) as (c & Hc & HP).
    exists c. split; [exact Hc | apply negb_true_iff; exact HP].
  - destruct (IH ltac:(discriminate) Hl) as (c & Hc & HP).
    exists c. split; [|exact HP].
    change (PyStr.join "/" (x :: y :: l))
      with (x ++ String "/" (PyStr.join "/" (y :: l))).
    rewrite last_char_app by discriminate.
    cbn [last_char]. rewrite Hc.
    destruct (PyStr.join "/" (y :: l)); [discriminate Hc | reflexivity].
Qed.

Lemma dirname_of_join (init : list string) (z : string) :
  List.forallb name_segment (init ++ [z]) = true ->
  PosixPath.dirname (PyStr.join "/" (init ++ [z])) = PyStr.join "/" init.
Proof.
  intros H. rewrite List.forallb_app in H. apply andb_true_iff in H.
  destruct H as [Hi Hz]. cbn [List.forallb] in Hz. rewrite andb_true_r in Hz.
  destruct (name_segment_parts z Hz) as (_ & Hzs & _).
  pose proof (slashless_no_slash z Hzs) as Hz0.
  unfold PosixPath.dirname.
  destruct init as [|x init].
  - cbn [app PyStr.join]. rewrite (rcut_absent "/" z Hz0). reflexivity.
  - rewrite join_snoc by discriminate.
    rewrite (rcut_app_absent "/" _ z Hz0).
    set (A := PyStr.join "/" (x :: init)).
    assert (Hlead : PyStr.startswith "/" A = false).
    { cbn [List.forallb] in Hi. apply andb_true_iff in Hi.
      apply join_no_leading_slash. apply Hi. }
    destruct (join_last_char (x :: init) ltac:(discriminate) Hi) as (c & Hc & HP).
    fold A in Hc.
    assert (Hne : String.eqb (A ++ "/") "" = false) by (destruct A; reflexivity).
    assert (Hall : PyStr.all_char "/" (A ++ "/") = false).
    { destruct A as [|a A']; [discriminate Hc|].
      unfold PyStr.all_char. cbn [append PyStr.forallb].
      cbn [PyStr.startswith] in Hlead.
      rewrite andb_true_r in Hlead. rewrite Hlead. reflexivity. }
    rewrite Hne, Hall. cbn [negb andb].
    rewrite (rstrip_snoc "/" A "/" eq_refl).
    apply (rstrip_keep_last "/" A c Hc).
    unfold is_slash, slashes in HP. cbn [PyStr.has_char] in *.
    apply orb_false_iff in HP. destruct HP as [HP _]. rewrite HP. reflexivity.
Qed.

(** X23: for a non-empty sequence of names (not empty, plain characters, no
    slash or backslash), the name of the joined path is the last name, and
    its parent is the joined path of the names before the last one. *)
Theorem name_and_dir_of_join (self : https_connection) (l : list string) :
  l <> [] ->
  List.forallb name_segment l = true ->
  name self (path_string (join self l)) = Ok (List.last l "")
  /\ dir self (path_string (join self l))
     = Ok (Some (join self (List.removelast l))).
Proof.
  intros Hne H.
  pose proof (name_segments_slashless l H) as Hsl.
  rewrite (join_slashless self l Hsl). cbn [path_string].
  set (J := PyStr.join "/" l).
  assert (Hlead : PyStr.startswith "/" J = false).
  { destruct l as [|x l']; [congruence|].
    cbn [List.forallb] in H. apply andb_true_iff in H.
    apply join_no_leading_slash. apply H. }
  assert (Hpp : plain_path J = true).
  { pose proof (join_plain l H) as Hjp.
    change (PyStr.forallb plain_char J = true) in Hjp.
    unfold plain_path. rewrite Hjp. cbn [andb]. clear Hjp.
    destruct J as [|c J']; [reflexivity|].
    cbn [PyStr.startswith] in *. rewrite andb_true_r in Hlead.
    rewrite Hlead. reflexivity. }
  destruct (urlparse_plain J "" Hpp eq_refl) as (u & Hu & Hpath).
  rewrite append_empty_r in Hu.
  split.
  - rewrite (name_of_parsed self J u Hu), Hpath, basename_last_segment.
    unfold J. rewrite (split_join l Hne Hsl). reflexivity.
  - rewrite (dir_of_parsed self J u Hu), Hpath.
    destruct (List.exists_last Hne) as (init & z & El).
    assert (Hd : PosixPath.dirname J = PyStr.join "/" init).
    { unfold J. rewrite El. apply dirname_of_join. rewrite <- El. exact H. }
    rewrite Hd.
    assert (Hinit : List.forallb slashless init = true).
    { rewrite El, List.forallb_app in Hsl. apply andb_true_iff in Hsl. apply Hsl. }
    rewrite El, List.removelast_last, (join_slashless self init Hinit).
    destruct (String.eqb_spec (PyStr.join "/" init) J) as [E|_]; [|reflexivity].
    exfalso.
    pose proof (f_equal String.length E) as Hlen.
    unfold J in Hlen. rewrite El in Hlen.
    destruct init as [|x init'].
    + cbn [app PyStr.join String.length] in Hlen.
      rewrite El in H. cbn [app List.forallb] in H. rewrite andb_true_r in H.
      destruct (name_segment_parts z H) as (Hz & _).
      apply Hz. apply length_zero_empty. lia.
    + rewrite join_snoc in Hlen by discriminate.
      rewrite length_append in Hlen. cbn [String.length] in Hlen. lia.
Qed.

Lemma name_and_dir_of_join_witness :
  name example_connection (path_string (join example_connection ["a"; "b"; "c.txt"]))
  = Ok (List.last ["a"; "b"; "c.txt"] "")
  /\ dir example_connection (path_string (join example_connection ["a"; "b"; "c.txt"]))
     = Ok (Some (join example_connection (List.removelast ["a"; "b"; "c.txt"]))).
Proof.
  apply name_and_dir_of_join; [discriminate | reflexivity].
Defined.

(** ** From a path to its URL and back *)

Lemma remove_char_absent (b : ascii) (s : string) :
  PyStr.has_char b s = false -> PyStr.remove_char b s = s.
Proof.
  induction s as [|d s IH]; cbn [PyStr.has_char PyStr.remove_char];
    [reflexivity|].
  intros H. apply orb_false_iff in H. destruct H as [Hd Hs].
  rewrite Hd, (IH Hs). reflexivity.
Qed.

Lemma cut_absent (c : ascii) (s : string) :
  PyStr.has_char c s = false -> PyStr.cut c s = None.
Proof.
  induction s as [|d s IH]; cbn [PyStr.has_char PyStr.cut]; [reflexivity|].
  intros H. apply orb_false_iff in H. destruct H as [Hd Hs].
  rewrite Hd, (IH Hs). reflexivity.
Qed.

Lemma substring_all (s : string) (n : nat) :
  (String.length s <= n)%nat -> String.substring 0 n s = s.
Proof.
  revert n. induction s as [|c s IH]; intros n H.
  - destruct n; reflexivity.
  - destruct n as [|n]; cbn [String.length] in H; [lia|].
    cbn [String.substring]. rewrite IH by lia. reflexivity.
Qed.

Lemma span_until_app (stop : ascii -> bool) (a b : string) :
  PyStr.forallb (fun c => negb (stop c)) a = true ->
  match b with EmptyString => true | String c _ => stop c end = true ->
  PyStr.span_until stop (a ++ b) = (a, b).
Proof.
  intros Ha Hb. induction a as [|d a IH]; cbn [append PyStr.span_until].
  - destruct b as [|c b]; [reflexivity|]. cbn [PyStr.span_until].
    rewrite Hb. reflexivity.
  - cbn [PyStr.forallb] in Ha. apply andb_true_iff in Ha.
    destruct Ha as [Hd Ha]. apply negb_true_iff in Hd.
    rewrite Hd, (IH Ha). reflexivity.
Qed.

Lemma char_class_facts (c : ascii) :
  (plain_char c = true -> printable c = true)
  /\ (query_char c = true -> printable c = true)
  /\ (netloc_char c = true -> printable c = true)
  /\ (int_char c = true -> netloc_char c = true)
  /\ (host_char c = true -> netloc_char c = true)
  /\ (netloc_char c = true -> negb (UrlParse.is_netloc_delim c) = true).
Proof.
  destruct c as [[] [] [] [] [] [] [] []]; vm_compute;
    repeat split; intros H; try discriminate H; reflexivity.
Qed.

Lemma printable_lacks_unsafe (s : string) :
  PyStr.forallb printable s = true ->
  List.fold_left (fun u b => PyStr.remove_char b u)
                 UrlParse._UNSAFE_URL_BYTES_TO_REMOVE s = s.
Proof.
  intros H. unfold UrlParse._UNSAFE_URL_BYTES_TO_REMOVE. cbn [List.fold_left].
  rewrite (remove_char_absent "009" s) by (apply (forallb_lacks printable); auto).
  rewrite (remove_char_absent "013" s) by (apply (forallb_lacks printable); auto).
  rewrite (remove_char_absent "010" s) by (apply (forallb_lacks printable); auto).
  reflexivity.
Qed.

Lemma urlsplit_https (N raw q : string) :
  PyStr.forallb netloc_char N = true ->
  PyStr.forallb plain_char raw = true ->
  rooted raw = true ->
  PyStr.forallb query_char q = true ->
  UrlParse.urlsplit ("https://" ++ N ++ raw ++ "?" ++ q)
  = Ok ("https", N, raw, q, "").
Proof.
  intros HN Hraw Hroot Hq.
  set (rest := raw ++ "?" ++ q).
  assert (Hprint : PyStr.forallb printable ("https://" ++ N ++ rest) = true).
  { unfold rest. rewrite !forallb_app.
    rewrite (forallb_impl netloc_char printable N
               (fun c => proj1 (proj2 (proj2 (char_class_facts c)))) HN).
    rewrite (forallb_impl plain_char printable raw
               (fun c => proj1 (char_class_facts c)) Hraw).
    rewrite (forallb_impl query_char printable q
               (fun c => proj1 (proj2 (char_class_facts c))) Hq).
    reflexivity. }
  unfold UrlParse.urlsplit.
  assert (Hl : PyStr.lstrip UrlParse._WHATWG_C0_CONTROL_OR_SPACE
                 ("https://" ++ N ++ rest) = "https://" ++ N ++ rest).
  { apply (lstrip_keep UrlParse._WHATWG_C0_CONTROL_OR_SPACE "h").
    vm_compute. reflexivity. }
  rewrite Hl. clear Hl.
  rewrite (printable_lacks_unsafe _ Hprint).
  change (UrlParse.split_scheme ("https://" ++ N ++ rest))
    with ("https", "//" ++ N ++ rest).
  cbv iota beta.
  change (PyStr.startswith "//" ("//" ++ N ++ rest)) with true.
  cbv iota.
  change (String.substring 2 (String.length ("//" ++ N ++ rest)) ("//" ++ N ++ rest))
    with (String.substring 0 (S (S (String.length (N ++ rest)))) (N ++ rest)).
  rewrite substring_all by lia.
  unfold UrlParse._splitnetloc.
  assert (Hstop : match rest with
                  | EmptyString => true
                  | String c _ => UrlParse.is_netloc_delim c
                  end = true).
  { unfold rest, rooted in *. destruct raw as [|c raw']; [reflexivity|].
    cbn [String.eqb orb PyStr.startswith] in Hroot.
    rewrite andb_true_r in Hroot.
    apply Ascii.eqb_eq in Hroot. subst c. reflexivity. }
  rewrite (span_until_app UrlParse.is_netloc_delim N rest
             (forallb_impl netloc_char _ N
                (fun c => proj2 (proj2 (proj2 (proj2 (proj2 (char_class_facts c))))))
                HN)
             Hstop).
  rewrite (forallb_lacks netloc_char "[" N eq_refl HN).
  rewrite (forallb_lacks netloc_char "]" N eq_refl HN).
  cbn [andb orb rbind].
  destruct (plain_lacks raw Hraw) as (_ & _ & _ & _ & Hqm & Hhash & _).
  assert (Hnofrag : PyStr.has_char "#" rest = false).
  { unfold rest. rewrite has_char_app, Hhash. cbn [orb append PyStr.has_char].
    apply (forallb_lacks query_char); [reflexivity | exact Hq]. }
  rewrite (cut_absent "#" rest Hnofrag).
  unfold rest. rewrite (cut_app_absent "?" raw _ Hqm).
  cbn [append PyStr.cut]. rewrite Ascii.eqb_refl, append_empty_r.
  reflexivity.
Qed.

Lemma load_url_https (N raw q host : string) (n : Z) :
  PyStr.forallb netloc_char N = true ->
  PyStr.forallb plain_char raw = true ->
  rooted raw = true ->
  PyStr.forallb query_char q = true ->
  split_port N DEFAULT_HTTPS_PORT = Ok (host, n) ->
  load_url ("https://" ++ N ++ raw ++ "?" ++ q)
  = Ok (mkPath (raw ++ "?" ++ q) (connect (mkConnector host n None))).
Proof.
  intros HN Hraw Hroot Hq Hsp.
  unfold load_url. rewrite with_scheme_https.
  unfold UrlParse.urlparse.
  rewrite (urlsplit_https N raw q HN Hraw Hroot Hq). cbn [rbind].
  destruct (plain_lacks raw Hraw) as (_ & _ & _ & _ & _ & _ & Hsemi).
  rewrite Hsemi, andb_false_r.
  cbn [rbind UrlParse.scheme UrlParse.netloc UrlParse.path UrlParse.params
       UrlParse.query UrlParse.fragment].
  change (assert (String.eqb "" "" && String.eqb "" "")) with (Ok tt).
  change (assert (String.eqb (PyStr.lower "https") "https")) with (Ok tt).
  rewrite (forallb_lacks netloc_char "@" N eq_refl HN).
  cbn [negb assert rbind].
  fold (split_port N DEFAULT_HTTPS_PORT). rewrite Hsp. cbn [rbind].
  rewrite (connector_init_host_port_value host n None
             (split_port_host_clean _ _ _ _ Hsp)).
  reflexivity.
Qed.

(** X24: from a path to its URL and back.  On a connection whose host is
    made of host characters, the URL that [_get_url] builds for a path
    [raw?query] (plain raw path that is empty or starts with a slash, query
    without [#]) is accepted by [load_url], which answers the same path
    string on the connector of the same host and port. *)
Theorem load_url_of_get_url (self : https_connection) (raw q url : string) :
  PyStr.forallb host_char (server (_connector self)) = true ->
  PyStr.forallb plain_char raw = true ->
  rooted raw = true ->
  PyStr.forallb query_char q = true ->
  _get_url self (raw ++ "?" ++ q) = Ok url ->
  load_url url
  = Ok (mkPath (raw ++ "?" ++ q)
               (connect (mkConnector (server (_connector self))
                                     (port (_connector self)) None))).
Proof.
  intros Hh Hraw Hroot Hq Hurl.
  rewrite get_url_value in Hurl. inversion Hurl as [E]. clear Hurl E.
  set (H := server (_connector self)) in *.
  set (P := port (_connector self)) in *.
  assert (HN : PyStr.forallb netloc_char H = true).
  { apply (forallb_impl host_char); [|exact Hh].
    intros c. apply (char_class_facts c). }
  assert (Hcolon : PyStr.has_char ":" H = false)
    by (apply (forallb_lacks host_char); [reflexivity | exact Hh]).
  unfold url_of. fold H P.
  destruct (P =? 443) eqn:EP.
  - apply Z.eqb_eq in EP.
    apply (load_url_https H raw q H P HN Hraw Hroot Hq).
    unfold split_port. rewrite Hcolon, EP. reflexivity.
  - assert (HN' : PyStr.forallb netloc_char (H ++ ":" ++ PyStr.of_int P) = true).
    { rewrite forallb_app, HN. cbn [append PyStr.forallb andb].
      apply (forallb_impl int_char); [|apply of_int_chars].
      intros c. apply (char_class_facts c). }
    pose proof (load_url_https (H ++ ":" ++ PyStr.of_int P) raw q H P
                  HN' Hraw Hroot Hq
                  (split_port_host_port H P DEFAULT_HTTPS_PORT Hcolon)) as L.
    rewrite append_assoc in L. exact L.
Qed.

Lemma load_url_of_get_url_witness :
  load_url "https://example.com/a/b?x=1"
  = Ok (mkPath ("/a/b" ++ "?" ++ "x=1")
               (connect (mkConnector "example.com" 443 None))).
Proof.
  exact (load_url_of_get_url example_connection "/a/b" "x=1"
           "https://example.com/a/b?x=1" eq_refl eq_refl eq_refl eq_refl eq_refl).
Defined.

(** ** An authority that cannot be split *)




